(** * socialbio-payments: subscription store, webhook dispatch and
      payment-intent reconciliation

    A shallow embedding of

      - [src/models/subscription.models.ts]: the Mongoose schema;
      - [src/services/subscriptions-results.service.ts], whose text is
        found in [src/models/email.models.ts] from line 8 on;
      - [src/services/stripe.service.ts]: [cancelSubscriptionOnStripe],
        [saveSubscriptionResult], [updateSubscriptionResult] and
        [hookEventsFromStripe], then [createCustomer],
        [assureStripeCustomerCreated], [getSubsctriptionPaymentIntent]
        and [createSubscriptionOnStripe];
      - [src/services/webhooks/payment-intent.service.ts]:
        [handlePaymentIntent];

    followed by the properties of the specification that concern them.

    Asynchronous functions are embedded as computations in a state and
    exception monad over a [World] that holds the two collections, the
    module-level provider client, the log, the outgoing mail attempts and
    the requests made to the payment provider.  Every [await] is a bind;
    a call that is not awaited runs detached. *)

From Stdlib Require Import String Ascii List ZArith Bool.
Import ListNotations.

Set Warnings "-register-all".

Open Scope string_scope.
Open Scope list_scope.

(* ================================================================== *)
(** ** JavaScript values as they reach the store *)
(* ================================================================== *)

Module Json.

(** Plain data: what [any]-typed payloads, [Object] schema paths and
    filter/update literals are made of.  Object fields are kept in order,
    because the store compares embedded documents field by field, in
    order.  Numbers are the integers the code handles (timestamps, amounts
    in cents). *)
Inductive json : Type :=
| JNull
| JBool (b : bool)
| JNum (n : Z)
| JStr (s : string)
| JArr (items : list json)
| JObj (fields : list (string * json)).

(** A document is the field list of an object. *)
Definition document : Type := list (string * json).

Fixpoint json_eqb (x y : json) {struct x} : bool :=
  match x, y with
  | JNull, JNull => true
  | JBool a, JBool b => Bool.eqb a b
  | JNum a, JNum b => Z.eqb a b
  | JStr a, JStr b => String.eqb a b
  | JArr xs, JArr ys =>
      (fix items_eqb (xs ys : list json) : bool :=
         match xs, ys with
         | [], [] => true
         | x :: xs', y :: ys' => json_eqb x y && items_eqb xs' ys'
         | _, _ => false
         end) xs ys
  | JObj xs, JObj ys =>
      (fix fields_eqb (xs ys : list (string * json)) : bool :=
         match xs, ys with
         | [], [] => true
         | (k, x) :: xs', (l, y) :: ys' =>
             String.eqb k l && json_eqb x y && fields_eqb xs' ys'
         | _, _ => false
         end) xs ys
  | _, _ => false
  end.

(** JavaScript truthiness, as used by [if (x)] and [!x]. *)
Definition truthy (v : json) : bool :=
  match v with
  | JNull => false
  | JBool b => b
  | JNum n => negb (Z.eqb n 0)
  | JStr s => negb (String.eqb s "")
  | JArr _ | JObj _ => true
  end.

(** [undefined] is [None]. *)
Definition truthy_opt (v : option json) : bool :=
  match v with
  | Some w => truthy w
  | None => false
  end.

(** Reading an own property of a document. *)
Fixpoint getField (k : string) (d : document) : option json :=
  match d with
  | [] => None
  | (l, v) :: rest => if String.eqb k l then Some v else getField k rest
  end.

(** Writing one: in place when the field exists, appended otherwise. *)
Fixpoint setField (k : string) (v : json) (d : document) : document :=
  match d with
  | [] => [(k, v)]
  | (l, w) :: rest =>
      if String.eqb k l then (l, v) :: rest else (l, w) :: setField k v rest
  end.

(** Following a dotted path through nested objects. *)
Fixpoint getPath (p : list string) (v : json) : option json :=
  match p with
  | [] => Some v
  | k :: p' =>
      match v with
      | JObj fields =>
          match getField k fields with
          | Some w => getPath p' w
          | None => None
          end
      | _ => None
      end
  end.

(** Structural induction that reaches inside arrays and objects. *)
Section NestedInduction.
Variable P : json -> Prop.
Hypothesis HNull : P JNull.
Hypothesis HBool : forall b, P (JBool b).
Hypothesis HNum : forall n, P (JNum n).
Hypothesis HStr : forall s, P (JStr s).
Hypothesis HArr : forall items, Forall P items -> P (JArr items).
Hypothesis HObj :
  forall fields, Forall (fun kv => P (snd kv)) fields -> P (JObj fields).

Fixpoint json_nested_ind (v : json) : P v :=
  match v with
  | JNull => HNull
  | JBool b => HBool b
  | JNum n => HNum n
  | JStr s => HStr s
  | JArr items =>
      HArr items
        ((fix all (l : list json) : Forall P l :=
            match l with
            | [] => Forall_nil P
            | x :: l' => Forall_cons x (json_nested_ind x) (all l')
            end) items)
  | JObj fields =>
      HObj fields
        ((fix all (l : list (string * json))
            : Forall (fun kv => P (snd kv)) l :=
            match l with
            | [] => Forall_nil _
            | kv :: l' => Forall_cons kv (json_nested_ind (snd kv)) (all l')
            end) fields)
  end.

End NestedInduction.

End Json.
Export Json.

(* ================================================================== *)
(** ** The document store, as the Mongoose models use it *)
(* ================================================================== *)

Module Mongoose.

(** A filter or an update literal is an object: a list of
    [path: value] pairs. *)
Definition query : Type := document.
Definition update : Type := document.

(** [{path: value}] in a filter is an equality condition.  When [value]
    is itself a document the store compares whole embedded documents:
    same fields, same order, same values; it is not a test on one nested
    path.  A condition on [null] also selects documents without the
    path. *)
Definition matchesCondition (d : document) (c : string * json) : bool :=
  match getField (fst c) d with
  | Some w => json_eqb w (snd c)
  | None => json_eqb (snd c) JNull
  end.

Definition matches (q : query) (d : document) : bool :=
  forallb (matchesCondition d) q.

(** A model is a schema, given by its declared paths, together with the
    [strictQuery] setting, whose default is not the same in every major
    version of the library: when set, filter conditions on undeclared
    paths are dropped; when unset they are sent to the store as written.
    Schemas are strict (the default, which [subscriptionSchema] does not
    override): undeclared paths are dropped from what is written.  The
    bookkeeping paths ([_id], [__v] and the two timestamps) are left
    out. *)
Record Model : Type := {
  schemaPaths : list string;
  strictQuery : bool
}.

Definition inSchema (m : Model) (k : string) : bool :=
  existsb (String.eqb k) (schemaPaths m).

Definition strictFields (m : Model) (d : document) : document :=
  filter (fun c => inSchema m (fst c)) d.

Definition castQuery (m : Model) (q : query) : query :=
  if strictQuery m then strictFields m q else q.

(** An update literal without operators is a [$set] of its fields. *)
Definition applySet (u : update) (d : document) : document :=
  fold_left (fun acc c => setField (fst c) (snd c) acc) u d.

(** The first document satisfying [p] is replaced by its image under
    [f]; [new] chooses which of the two is returned. *)
Fixpoint updateFirst (p : document -> bool) (f : document -> document)
    (new : bool) (coll : list document) : option document * list document :=
  match coll with
  | [] => (None, [])
  | d :: rest =>
      if p d then (Some (if new then f d else d), f d :: rest)
      else
        let r := updateFirst p f new rest in
        (fst r, d :: snd r)
  end.

Definition findOneAndUpdate (m : Model) (q : query) (u : update)
    (new : bool) (coll : list document) : option document * list document :=
  updateFirst (matches (castQuery m q)) (applySet (strictFields m u)) new coll.

Definition findOne (m : Model) (q : query) (coll : list document)
  : option document :=
  List.find (matches (castQuery m q)) coll.

Definition find (m : Model) (q : query) (coll : list document)
  : list document :=
  List.filter (matches (castQuery m q)) coll.

Definition create (m : Model) (d : document) (coll : list document)
  : document * list document :=
  let stored := strictFields m d in
  (stored, coll ++ [stored]).

End Mongoose.

(* ================================================================== *)
(** ** [src/models/subscription.models.ts] *)
(* ================================================================== *)

Record ISubscriptionCreationResult : Type := {
  subscriptionId : string;
  subscriptionEnd : Z;
  subscriptionStart : Z;
  currency : string;
  priceId : string;
  recurrency : option string;
  customer : json;
  latestInvoice : json;
  userId : string;
  status : string
}.

(** The own properties of such an object, as [{ ...subscription }] and
    [create(subscription)] enumerate them. *)
Definition subscriptionFields (s : ISubscriptionCreationResult) : document :=
  [ ("subscriptionId", JStr (subscriptionId s));
    ("subscriptionEnd", JNum (subscriptionEnd s));
    ("subscriptionStart", JNum (subscriptionStart s));
    ("currency", JStr (currency s));
    ("priceId", JStr (priceId s)) ]
  ++ match recurrency s with
     | Some r => [("recurrency", JStr r)]
     | None => []
     end
  ++ [ ("customer", customer s);
       ("latestInvoice", latestInvoice s);
       ("userId", JStr (userId s));
       ("status", JStr (status s)) ].

(** The paths [subscriptionSchema] declares. *)
Definition subscriptionSchema : list string :=
  [ "subscriptionId"; "subscriptionEnd"; "subscriptionStart"; "currency";
    "priceId"; "recurrency"; "customer"; "latestInvoice"; "userId";
    "status" ].

(** Modelled from the spec: the [SubscriptionStatus] enumeration is
    imported from this file but not declared in the sources; [canceled]
    is the status the specification names, and the literal the sibling
    [cancelSubscriptionResult] writes. *)
Module SubscriptionStatus.
Definition canceled : string := "canceled".
End SubscriptionStatus.

(** Modelled from the spec: [IPaymentIntent] is imported from this file
    but its declaration is not among the sources; the fields are those
    the specification lists for the provider's payment intent, which are
    also the ones the handler reads.  [receipt_email] and [customer] may
    be [null] in a provider payload.  [pi_other] holds whatever else the
    provider put in the object: the code never reads it, but it travels
    with the object when that is written to the store. *)
Record IPaymentIntent : Type := {
  pi_id : string;
  pi_amount_received : Z;
  pi_currency : string;
  pi_receipt_email : option string;
  pi_customer : json;
  pi_status : string;
  pi_other : document
}.

(** The payment intent as the plain object it is at run time. *)
Definition paymentIntentObject (p : IPaymentIntent) : json :=
  JObj ([ ("id", JStr (pi_id p));
          ("amount_received", JNum (pi_amount_received p));
          ("currency", JStr (pi_currency p));
          ("receipt_email",
            match pi_receipt_email p with Some e => JStr e | None => JNull end);
          ("customer", pi_customer p);
          ("status", JStr (pi_status p)) ] ++ pi_other p).

(** The model behind [SubscriptionsDB]. *)
Definition SubscriptionsModel (strictQuery : bool) : Mongoose.Model :=
  {| Mongoose.schemaPaths := subscriptionSchema;
     Mongoose.strictQuery := strictQuery |}.

(* ================================================================== *)
(** ** The world the services act on *)
(* ================================================================== *)

(** Modelled from the spec: [IUser] lives in [user.models], which is not
    among the sources; a user has a name and the e-mail address that
    payment receipts are matched against. *)
Record IUser : Type := {
  firstName : string;
  lastName : string;
  user_email : string
}.

(** The recipient descriptor, with the fields [handlePaymentIntent]
    gives it. *)
Record IEmailRecipient : Type := {
  name : string;
  email : string;
  subject : string;
  messageHTML : string;
  messagePlainText : string
}.

Inductive LogLevel : Type := LogWarn | LogSuccess | LogError | LogConsole.

(** Requests sent to the payment provider. *)
Inductive StripeCall : Type :=
| SubscriptionsDel (subscriptionId : string)
| CreateSubscriptionSchedule (customerId subscriptionId : json).

(** The provider client: an opaque handle. *)
Inductive Stripe : Type := StripeClient.

(** A webhook event: its [type] and [data.object].  Only payment-intent
    payloads are given a shape, the payment-intent handler being the one
    whose source is available; the dispatcher reads nothing but [type]. *)
Record Event : Type := {
  type : string;
  data_object : IPaymentIntent
}.

(** Which webhook handler was started, and on what: a trace kept by the
    model, so that "no handler is invoked" can be stated. *)
Inductive HandlerCall : Type :=
| PaymentIntentHandler (event : Event)
| InvoiceHandler (event : Event).

Record World : Type := {
  subscriptions : list document;      (* the SubscriptionsDB collection *)
  users : list IUser;                 (* the UserDb collection *)
  stripeInstance : option Stripe;     (* [let stripeInstance] *)
  logs : list (LogLevel * string);
  outbox : list IEmailRecipient;      (* sendEmailToUser attempts, in order *)
  stripeCalls : list StripeCall;
  handlerCalls : list HandlerCall
}.

Definition withSubscriptions (c : list document) (w : World) : World :=
  {| subscriptions := c; users := users w;
     stripeInstance := stripeInstance w; logs := logs w;
     outbox := outbox w; stripeCalls := stripeCalls w;
     handlerCalls := handlerCalls w |}.

Definition withStripeInstance (s : option Stripe) (w : World) : World :=
  {| subscriptions := subscriptions w; users := users w;
     stripeInstance := s; logs := logs w;
     outbox := outbox w; stripeCalls := stripeCalls w;
     handlerCalls := handlerCalls w |}.

Definition withLog (l : LogLevel * string) (w : World) : World :=
  {| subscriptions := subscriptions w; users := users w;
     stripeInstance := stripeInstance w; logs := logs w ++ [l];
     outbox := outbox w; stripeCalls := stripeCalls w;
     handlerCalls := handlerCalls w |}.

Definition withMail (r : IEmailRecipient) (w : World) : World :=
  {| subscriptions := subscriptions w; users := users w;
     stripeInstance := stripeInstance w; logs := logs w;
     outbox := outbox w ++ [r]; stripeCalls := stripeCalls w;
     handlerCalls := handlerCalls w |}.

Definition withStripeCall (c : StripeCall) (w : World) : World :=
  {| subscriptions := subscriptions w; users := users w;
     stripeInstance := stripeInstance w; logs := logs w;
     outbox := outbox w; stripeCalls := stripeCalls w ++ [c];
     handlerCalls := handlerCalls w |}.

Definition withHandlerCall (c : HandlerCall) (w : World) : World :=
  {| subscriptions := subscriptions w; users := users w;
     stripeInstance := stripeInstance w; logs := logs w;
     outbox := outbox w; stripeCalls := stripeCalls w;
     handlerCalls := handlerCalls w ++ [c] |}.

(** *** Computations: state and exceptions *)

Inductive Outcome (A : Type) : Type :=
| Returned (a : A)
| Thrown (message : string).
Arguments Returned {A} a.
Arguments Thrown {A} message.

Definition M (A : Type) : Type := World -> Outcome A * World.

Definition ret {A : Type} (a : A) : M A := fun w => (Returned a, w).

Definition throw {A : Type} (message : string) : M A :=
  fun w => (Thrown message, w).

Definition bind {A B : Type} (m : M A) (k : A -> M B) : M B :=
  fun w =>
    match m w with
    | (Returned a, w') => k a w'
    | (Thrown e, w') => (Thrown e, w')
    end.

Declare Scope async_scope.
Delimit Scope async_scope with async.
Notation "x <- m ;; k" := (bind m (fun x => k))
  (at level 61, m at next level, right associativity) : async_scope.
Notation "m ;;; k" := (bind m (fun _ => k))
  (at level 61, right associativity) : async_scope.
Open Scope async_scope.

Definition gets {A : Type} (f : World -> A) : M A :=
  fun w => (Returned (f w), w).

Definition modify (f : World -> World) : M unit :=
  fun w => (Returned tt, f w).

(** A call whose promise is dropped: it runs, but neither its value nor
    its rejection reaches the caller. *)
Definition detached {A : Type} (m : M A) : M unit :=
  fun w => (Returned tt, snd (m w)).

Definition logAt (level : LogLevel) (message : string) : M unit :=
  modify (withLog (level, message)).

Definition sendEmailToUser (r : IEmailRecipient) : M unit :=
  modify (withMail r).

(* ================================================================== *)
(** ** Collaborators that are not among the sources *)
(* ================================================================== *)

Record Dictionary : Type := {
  payment : string;
  paymentSucceed : string
}.

Record EmailCredentials : Type := {
  user : option string
}.

Record Schedule : Type := {
  schedule_id : string
}.

(** [new AppResult(message, details, code)]. *)
Record AppResult : Type := {
  message : string;
  details : option string;
  code : Z
}.

Inductive Body : Type :=
| EmptyBody
| JsonBody (r : AppResult).

Record Response : Type := {
  res_status : Z;
  res_body : Body
}.

Record Request : Type := {
  req_body : string;
  stripe_signature : option string
}.

(** Everything the four files import from elsewhere: configuration,
    constants, the provider's library and the helper modules.  They are
    parameters of the development. *)
Record Deps : Type := {
  (* mongoose: the strictQuery setting in force for SubscriptionsDB *)
  subscriptionsStrictQuery : bool;
  (* config/stripe *)
  initializeStripe : option Stripe;
  (* process.env.STRIPE_WEBHOOK_SECRET *)
  STRIPE_WEBHOOK_SECRET : option string;
  (* stripe.webhooks.constructEvent: the parsed event, or the message of
     the error it throws *)
  constructEvent : string -> option string -> string -> Outcome (option Event);
  (* constants *)
  INTERNAL_ERROR : string;
  SYSTEM_EMAIL_CREDENTIALS : option EmailCredentials;
  (* utils/stripe, utils/localization, utils/email *)
  getLanguageFromCurrency : string -> string;
  getDictionayByLanguage : string -> Dictionary;
  convertPaymentAmountToDecimalString : Z -> string;
  getPlanByPriceId : option json -> string;
  getHTMLBody : string -> string;
  getHTMLButton : string -> string -> string;
  (* the provider's answer to a subscription-schedule request *)
  scheduleFor : json -> json -> option Schedule;
  (* services/webhooks/invoice.service *)
  handleInvoice : Event -> M unit
}.

(* ================================================================== *)
(** ** String helpers of the JavaScript runtime *)
(* ================================================================== *)

(** [s.includes(needle)]. *)
Fixpoint includes (needle s : string) : bool :=
  if String.prefix needle s then true
  else
    match s with
    | EmptyString => false
    | String _ s' => includes needle s'
    end.

Definition upperChar (c : ascii) : ascii :=
  let n := nat_of_ascii c in
  if (Nat.leb 97 n && Nat.leb n 122)%bool then ascii_of_nat (n - 32) else c.

(** [s.toUpperCase()], on the ASCII letters that currency codes use. *)
Fixpoint toUpperCase (s : string) : string :=
  match s with
  | EmptyString => EmptyString
  | String c s' => String (upperChar c) (toUpperCase s')
  end.

(** Reading property [k] of a value: a [TypeError] on [null], [undefined]
    on anything that is not an object holding [k]. *)
Definition getProp (k : string) (v : json) : M (option json) :=
  match v with
  | JNull =>
      throw ("TypeError: Cannot read properties of null (reading '"
             ++ k ++ "')")%string
  | JObj fields => ret (getField k fields)
  | _ => ret None
  end.

(** What the driver sends for a filter value that may be [undefined]. *)
Definition orNull (v : option json) : json :=
  match v with
  | Some w => w
  | None => JNull
  end.

(* ================================================================== *)
(** ** The [SubscriptionsDB] and [UserDb] models as computations *)
(* ================================================================== *)

Module SubscriptionsDB.
Section WithDeps.
Variable E : Deps.

Definition model : Mongoose.Model :=
  SubscriptionsModel (subscriptionsStrictQuery E).

Definition create (d : document) : M document :=
  fun w =>
    let r := Mongoose.create model d (subscriptions w) in
    (Returned (fst r), withSubscriptions (snd r) w).

Definition find (q : Mongoose.query) : M (list document) :=
  gets (fun w => Mongoose.find model q (subscriptions w)).

Definition findOne (q : Mongoose.query) : M (option document) :=
  gets (fun w => Mongoose.findOne model q (subscriptions w)).

Definition findOneAndUpdate (q : Mongoose.query) (u : Mongoose.update)
    (new : bool) : M (option document) :=
  fun w =>
    let r := Mongoose.findOneAndUpdate model q u new (subscriptions w) in
    (Returned (fst r), withSubscriptions (snd r) w).

End WithDeps.
End SubscriptionsDB.

Module UserDb.

(** [UserDb.findOne({ email }).lean()].  Every user has an address, so a
    [null] receipt address selects nobody. *)
Definition findOne (receipt_email : option string) : M (option IUser) :=
  gets (fun w =>
    match receipt_email with
    | Some e => List.find (fun u => String.eqb (user_email u) e) (users w)
    | None => None
    end).

End UserDb.

(* ================================================================== *)
(** ** [src/services/subscriptions-results.service.ts] *)
(* ================================================================== *)

Module SubscriptionsResultsService.
Section WithDeps.
Variable E : Deps.

Definition getUserSubsctriptions (userId : string) : M (list document) :=
  SubscriptionsDB.find E [("userId", JStr userId)].

Definition saveSubscriptionResult (subscription : ISubscriptionCreationResult)
  : M document :=
  SubscriptionsDB.create E (subscriptionFields subscription).

Definition updateSubscriptionResultFromPaymentIntent
    (paymentIntent : IPaymentIntent) : M (option document) :=
  updatedSubscription <-
    SubscriptionsDB.findOneAndUpdate E
      [ ("latestInvoice",
          JObj [ ("payment_intent",
                   JObj [ ("id", JStr (pi_id paymentIntent)) ]) ]) ]
      [ ("latestInvoice",
          JObj [ ("payment_intent", paymentIntentObject paymentIntent) ]);
        ("status", JStr (pi_status paymentIntent)) ]
      true ;;
  ret updatedSubscription.

Definition updateSubscriptionResult (subscription : ISubscriptionCreationResult)
  : M (option document) :=
  SubscriptionsDB.findOneAndUpdate E
    [ ("subscriptionId", JStr (subscriptionId subscription)) ]
    (subscriptionFields subscription)
    true.

Definition cancelSubscriptionResult (subscriptionId : string)
  : M (option document) :=
  SubscriptionsDB.findOneAndUpdate E
    [ ("subscriptionId", JStr subscriptionId) ]
    [ ("status", JStr "canceled") ]
    true.

End WithDeps.
End SubscriptionsResultsService.

(* ================================================================== *)
(** ** [src/services/webhooks/payment-intent.service.ts] *)
(* ================================================================== *)

(** Modelled from the spec: [stripeService.createSubscriptionSchedule] is
    called by the handler but is not in the sources.  Per the
    specification it requests a schedule for a customer reference and a
    subscription id from the provider and yields the schedule reference
    or [null]. *)
Definition createSubscriptionSchedule (E : Deps)
    (customerId subscriptionId : json) : M (option Schedule) :=
  modify (withStripeCall (CreateSubscriptionSchedule customerId subscriptionId)) ;;;
  ret (scheduleFor E customerId subscriptionId).

Module PaymentIntentService.

Definition dquote : string := String (ascii_of_nat 34) EmptyString.

Section WithDeps.
Variable E : Deps.

(** The message bodies.  The layout whitespace of the template literals
    is reduced to single spaces. *)
Definition failedMessage (userFound : IUser) (lang : string)
  : string * string :=
  if String.eqb lang "pt" then
    ( getHTMLBody E
        ("<b>Olá, " ++ firstName userFound ++ "!</b><br> <br> "
         ++ "Desculpe! Seu pagamento falhou!<br> "
         ++ "Por favor tente fazer sua assinatura novamente<br> <br> "
         ++ getHTMLButton E "https://socialbio.me" "CLIQUE AQUI"
         ++ "<br> <br> ou abra esse link no seu navegador: "
         ++ "https://socialbio.me.<br> <br> <br> Equipe Socialbio<br>"),
      ("Olá, " ++ firstName userFound
        ++ "! Desculpe! Seu pagamento falhou! Por favor tente fazer sua "
        ++ "assinatura novamente no https://socialbio.me. Equipe Socialbio")%string )
  else
    ( ("<b>Hey " ++ firstName userFound ++ ",</b><br> <br> "
        ++ "Sorry, your payment failed!<br> "
        ++ "Please try to subscribe again.<br> <br> "
        ++ getHTMLButton E "https://socialbio.me" "CLICK HERE"
        ++ "<br> <br> or open this link your browser: "
        ++ "https://socialbio.me. <br> <br> Socialbio Team<br>")%string,
      ("Hey " ++ firstName userFound
        ++ "! Sorry, your payment failed! Please try to subscribe again. "
        ++ "Try again opening this link in your browser: "
        ++ "https://socialbio.me. Socialbio Team")%string ).

Definition siteLink : string :=
  ("<a href=" ++ dquote ++ "https://socialbio.me" ++ dquote
   ++ ">https://www.socialbio.me</a>")%string.

Definition succeededMessage (userFound : IUser) (plan : string)
    (updatedSubscription : document) (lang : string) : string * string :=
  if String.eqb lang "pt" then
    ( getHTMLBody E
        ("<b>Olá, " ++ firstName userFound ++ "!</b><br> <br> "
         ++ "Parabéns! Seu pagamento foi finalizado com sucesso!<br> "
         ++ "Agora você é um assinante " ++ plan ++ "!<br> "
         ++ "Bem-vindo a bordo!<br> <br> <br> Equipe Socialbio<br> "
         ++ siteLink),
      ("Olá, " ++ firstName userFound
        ++ "! Parabéns, seu pagamento foi finalizado com sucesso! "
        ++ "Agora você é um assinante " ++ plan
        ++ "! Bem-vindo a bordo! Equipe Socialbio (https://www.socialbio.me)")%string )
  else
    ( getHTMLBody E
        ("<b>Hey " ++ firstName userFound ++ ",</b><br> <br> "
         ++ "Congratulations! Your payment was finished with success!<br> "
         ++ "You are now a "
         ++ getPlanByPriceId E (getField "priceId" updatedSubscription)
         ++ " subscriber!<br> Welcome onboard!<br> <br> <br> "
         ++ "Socialbio Team<br> " ++ siteLink),
      ("Hey " ++ firstName userFound
        ++ "! Congratulations, your payment was finished with success! "
        ++ "You are now a "
        ++ getPlanByPriceId E (getField "priceId" updatedSubscription)
        ++ " subscriber! Welcome onboard! Socialbio Team "
        ++ "(https://www.socialbio.me)")%string ).

Definition systemRecipient (systemUser : string) (dictionary : Dictionary)
    (userFound : IUser) (plan amount currency : string) : IEmailRecipient :=
  {| name := "System";
     email := systemUser;
     subject := "[Socialbio] " ++ payment dictionary;
     messageHTML :=
       getHTMLBody E
         ("<b>Hey Team!</b><br> <br> User " ++ firstName userFound
          ++ " (" ++ user_email userFound ++ ") has just paid for a "
          ++ plan ++ " subscription of " ++ amount
          ++ " (" ++ toUpperCase currency ++ ") <br> Socialbio System<br>");
     messagePlainText :=
       "Hey Team! User " ++ firstName userFound
       ++ " (" ++ user_email userFound ++ ") has just paid for a "
       ++ plan ++ " subscription of " ++ amount
       ++ " (" ++ toUpperCase currency ++ "). Socialbio System" |}.

(** [SYSTEM_EMAIL_CREDENTIALS?.user], when truthy. *)
Definition systemUser : option string :=
  match SYSTEM_EMAIL_CREDENTIALS E with
  | Some credentials =>
      match user credentials with
      | Some u => if String.eqb u "" then None else Some u
      | None => None
      end
  | None => None
  end.


(** The two values [userRecipient] can take. *)
Definition failedRecipient (userFound : IUser) (language : string)
    (dictionary : Dictionary) : IEmailRecipient :=
  {| name := firstName userFound;
     email := user_email userFound;
     subject := "[Socialbio] " ++ payment dictionary;
     messageHTML := fst (failedMessage userFound language);
     messagePlainText := snd (failedMessage userFound language) |}.

Definition succeededRecipient (userFound : IUser) (language : string)
    (dictionary : Dictionary) (plan : string) (updatedSubscription : document)
  : IEmailRecipient :=
  {| name := firstName userFound;
     email := user_email userFound;
     subject := "[Socialbio] " ++ paymentSucceed dictionary;
     messageHTML :=
       fst (succeededMessage userFound plan updatedSubscription language);
     messagePlainText :=
       snd (succeededMessage userFound plan updatedSubscription language) |}.

(** The [payment_intent.succeeded] case, up to the user recipient it
    leaves in [userRecipient].  (The pictographs that open the log lines
    are left out of the messages.) *)
Definition onSucceeded (paymentIntent : IPaymentIntent) (userFound : IUser)
    (language : string) (dictionary : Dictionary) (amount plan : string)
    (updatedSubscription : document) : M (option IEmailRecipient) :=
  logAt LogSuccess
    ("Pagamento com sucesso para o usuario " ++ user_email userFound) ;;;
  customer_id <- getProp "id" (pi_customer paymentIntent) ;;
  let customerId : json :=
    if truthy_opt customer_id then orNull customer_id
    else pi_customer paymentIntent in
  found <- SubscriptionsDB.findOne E
             [ ("paymentIntentId", JStr (pi_id paymentIntent)) ] ;;
  let subscriptionId : option json :=
    match found with
    | Some d => getField "subscriptionId" d
    | None => None
    end in
  (if (truthy customerId && truthy_opt subscriptionId)%bool then
     schedule <- createSubscriptionSchedule E customerId (orNull subscriptionId) ;;
     match schedule with
     | Some schedule =>
         SubscriptionsDB.findOneAndUpdate E
           [ ("subscriptionId",
               orNull (getField "subscriptionId" updatedSubscription)) ]
           [ ("subscriptionScheduleId", JStr (schedule_id schedule)) ]
           false ;;;
         ret tt
     | None => ret tt
     end
   else ret tt) ;;;
  let userRecipient : IEmailRecipient :=
    succeededRecipient userFound language dictionary plan updatedSubscription in
  match systemUser with
  | Some u =>
      detached
        (sendEmailToUser
           (systemRecipient u dictionary userFound plan amount
              (pi_currency paymentIntent))) ;;;
      ret (Some userRecipient)
  | None => ret (Some userRecipient)
  end.

Definition onPaymentFailed (userFound : IUser) (language : string)
    (dictionary : Dictionary) : M (option IEmailRecipient) :=
  logAt LogWarn
    ("Pagamento do usuario " ++ user_email userFound ++ " falhou") ;;;
  ret (Some (failedRecipient userFound language dictionary)).

Definition handlePaymentIntent (event : Event) : M unit :=
  let paymentIntent := data_object event in
  userFound <- UserDb.findOne (pi_receipt_email paymentIntent) ;;
  match userFound with
  | Some userFound =>
      let currency := pi_currency paymentIntent in
      let language := getLanguageFromCurrency E currency in
      let dictionary := getDictionayByLanguage E language in
      let amount :=
        convertPaymentAmountToDecimalString E
          (pi_amount_received paymentIntent) in
      updatedSubscription <-
        SubscriptionsResultsService.updateSubscriptionResultFromPaymentIntent
          E paymentIntent ;;
      match updatedSubscription with
      | Some updatedSubscription =>
          let plan :=
            getPlanByPriceId E (getField "priceId" updatedSubscription) in
          userRecipient <-
            (if String.eqb (type event) "payment_intent.payment_failed" then
               onPaymentFailed userFound language dictionary
             else if String.eqb (type event) "payment_intent.succeeded" then
               onSucceeded paymentIntent userFound language dictionary
                 amount plan updatedSubscription
             else
               logAt LogConsole ("Unhandled event type " ++ type event) ;;;
               ret None) ;;
          match userRecipient with
          | Some r => detached (sendEmailToUser r)
          | None => ret tt
          end
      | None =>
          logAt LogError
            ("Error udpdating payment intent " ++ pi_id paymentIntent
             ++ " on Mongo")
      end
  | None => ret tt
  end.

End WithDeps.
End PaymentIntentService.

(* ================================================================== *)
(** ** [src/services/stripe.service.ts] *)
(* ================================================================== *)

Module StripeService.
Section WithDeps.
Variable E : Deps.

(** [if (!stripeInstance) stripeInstance = await initializeStripe();] *)
Definition ensureStripeInstance : M unit :=
  modify (fun w =>
    match stripeInstance w with
    | Some _ => w
    | None => withStripeInstance (initializeStripe E) w
    end).

(** [stripeInstance.subscriptions.del(id)] is not awaited: the request
    goes out and what comes back is a pending promise, an object. *)
Inductive Promise : Type := Pending.

Definition promiseTruthy (p : Promise) : bool := true.

Definition subscriptions_del (subscriptionId : string) : M Promise :=
  modify (withStripeCall (SubscriptionsDel subscriptionId)) ;;;
  ret Pending.

Definition cancelSubscriptionOnStripe (subscriptionId : string)
  : M (option document) :=
  ensureStripeInstance ;;;
  instance <- gets stripeInstance ;;
  match instance with
  | None => ret None
  | Some _ =>
      subscriptionUpdated <-
        SubscriptionsDB.findOneAndUpdate E
          [ ("subscriptionId", JStr subscriptionId) ]
          [ ("status", JStr SubscriptionStatus.canceled) ]
          true ;;
      match subscriptionUpdated with
      | None => ret None
      | Some updated =>
          subscription <- subscriptions_del subscriptionId ;;
          if negb (promiseTruthy subscription) then ret None
          else ret (Some updated)
      end
  end.

Definition saveSubscriptionResult (subscription : ISubscriptionCreationResult)
  : M document :=
  SubscriptionsDB.create E (subscriptionFields subscription).

Definition updateSubscriptionResult (subscription : ISubscriptionCreationResult)
  : M (option document) :=
  SubscriptionsDB.findOneAndUpdate E
    [ ("subscriptionId", JStr (subscriptionId subscription)) ]
    (subscriptionFields subscription)
    true.

Definition internalError : Response :=
  {| res_status := 500;
     res_body := JsonBody {| message := INTERNAL_ERROR E;
                             details := None;
                             code := 500 |} |}.

(** [process.env.STRIPE_WEBHOOK_SECRET], when truthy. *)
Definition webhookSecret : option string :=
  match STRIPE_WEBHOOK_SECRET E with
  | Some s => if String.eqb s "" then None else Some s
  | None => None
  end.

(** The handlers are called without [await]: they run detached, and the
    response does not depend on them. *)
Definition hookEventsFromStripe (req : Request) : M Response :=
  ensureStripeInstance ;;;
  instance <- gets stripeInstance ;;
  match instance with
  | None => ret internalError
  | Some _ =>
      match webhookSecret with
      | None => throw (INTERNAL_ERROR E)
      | Some secret =>
          match constructEvent E (req_body req) (stripe_signature req) secret with
          | Thrown error_message =>
              logAt LogError ("Webhook Error " ++ error_message) ;;;
              ret {| res_status := 500;
                     res_body := JsonBody {| message := "Webhook Error";
                                             details := Some error_message;
                                             code := 500 |} |}
          | Returned None => ret internalError
          | Returned (Some event) =>
              (if includes "payment_intent" (type event) then
                 modify (withHandlerCall (PaymentIntentHandler event)) ;;;
                 detached (PaymentIntentService.handlePaymentIntent E event)
               else if includes "invoice" (type event) then
                 modify (withHandlerCall (InvoiceHandler event)) ;;;
                 detached (handleInvoice E event)
               else ret tt) ;;;
              ret {| res_status := 200; res_body := EmptyBody |}
          end
      end
  end.

End WithDeps.
End StripeService.

(* ================================================================== *)
(** ** [src/services/stripe.service.ts], continued: what is created at
       the provider *)
(* ================================================================== *)

Module StripeProvisioning.

(** The fields of [IUser] that the customer functions read besides the
    name and the address: a user as these functions see it.  ([user_id]
    is [_id], already rendered by [toString()].) *)
Record Account : Type := {
  profile : IUser;
  authId : option string;
  user_id : option string;
  paymentId : option string
}.

(** [Stripe.CustomerCreateParams], as [createCustomer] fills it. *)
Record CustomerCreateParams : Type := {
  params_email : string;
  params_name : string;
  metadata_authId : option string;
  metadata_userId : option string
}.

(** [Stripe.Customer]: the code reads its [id]. *)
Record Customer : Type := {
  customer_id : string
}.

Inductive Recurrency : Type := month | year.

(** The argument of [subscriptions.create]. *)
Record SubscriptionCreateParams : Type := {
  sub_customer : string;
  sub_items : list string;            (* the [price] of each item *)
  cancel_at_period_end : bool;
  sub_currency : string;
  collection_method : string;
  save_default_payment_method : string;
  payment_behavior : string;
  expand : list string
}.

(** What these functions import: the three provider endpoints, which may
    do anything and may reject, the price table of [utils/stripe], the
    plan type of [user.models] and two error messages. *)
Record Api : Type := {
  PlansTypes : Type;
  customers_create : CustomerCreateParams -> M (option Customer);
  paymentIntents_retrieve : string -> M json;
  subscriptions_create : SubscriptionCreateParams -> M json;
  getPriceIdByRecurrencyAndPlanType : Recurrency -> PlansTypes -> option string;
  INVALID_PAYMENT_INSTANCE : string;
  PAYMENT_CUSTOMER_NOT_CREATED : string
}.

(** A string that may be [undefined], when truthy. *)
Definition truthyString (o : option string) : option string :=
  match o with
  | Some s => if String.eqb s "" then None else Some s
  | None => None
  end.

Section WithDeps.
Variable E : Deps.
Variable A : Api.

Definition customerParams (user : Account) : CustomerCreateParams :=
  {| params_email := user_email (profile user);
     params_name :=
       (firstName (profile user) ++ " " ++ lastName (profile user))%string;
     metadata_authId := truthyString (authId user);
     metadata_userId := truthyString (user_id user) |}.

Definition createCustomer (user : Account) : M (option Customer) :=
  StripeService.ensureStripeInstance E ;;;
  instance <- gets stripeInstance ;;
  match instance with
  | None => ret None
  | Some _ =>
      customer <- customers_create A (customerParams user) ;;
      match customer with
      | Some c => ret (Some c)
      | None => ret None
      end
  end.

Definition assureStripeCustomerCreated (user : Account) : M Account :=
  StripeService.ensureStripeInstance E ;;;
  instance <- gets stripeInstance ;;
  match instance with
  | None => throw (INVALID_PAYMENT_INSTANCE A)
  | Some _ =>
      match truthyString (paymentId user) with
      | Some _ => ret user
      | None =>
          customer <- createCustomer user ;;
          match customer with
          | None => throw (PAYMENT_CUSTOMER_NOT_CREATED A)
          | Some c =>
              ret {| profile := profile user;
                     authId := authId user;
                     user_id := user_id user;
                     paymentId := Some (customer_id c) |}
          end
      end
  end.

(** [paymentIntents.retrieve] is not awaited: the request goes out, the
    test on the promise it returns never fails, and the caller gets what
    the promise settles to. *)
Definition getSubsctriptionPaymentIntent (paymentIntentId : string)
  : M (option json) :=
  StripeService.ensureStripeInstance E ;;;
  instance <- gets stripeInstance ;;
  match instance with
  | None => ret None
  | Some _ =>
      if String.eqb paymentIntentId "" then ret None
      else
        paymentIntent <- paymentIntents_retrieve A paymentIntentId ;;
        ret (Some paymentIntent)
  end.

Definition subscriptionParams (paymentId currency priceId : string)
  : SubscriptionCreateParams :=
  {| sub_customer := paymentId;
     sub_items := [priceId];
     cancel_at_period_end := true;
     sub_currency := currency;
     collection_method := "charge_automatically";
     save_default_payment_method := "on_subscription";
     payment_behavior := "default_incomplete";
     expand := ["latest_invoice.payment_intent"] |}.

(** Likewise [subscriptions.create] is not awaited. *)
Definition createSubscriptionOnStripe (paymentId currency : string)
    (recurrency : Recurrency) (planType : PlansTypes A) : M (option json) :=
  StripeService.ensureStripeInstance E ;;;
  instance <- gets stripeInstance ;;
  match instance with
  | None => ret None
  | Some _ =>
      if String.eqb paymentId "" then ret None
      else
        match truthyString
                (getPriceIdByRecurrencyAndPlanType A recurrency planType) with
        | None => ret None
        | Some priceId =>
            subscription <-
              subscriptions_create A
                (subscriptionParams paymentId currency priceId) ;;
            ret (Some subscription)
        end
  end.

End WithDeps.
End StripeProvisioning.

(* ================================================================== *)
(** ** A concrete deployment, for the scenarios *)
(* ================================================================== *)

Module Scenario.

Definition user_a : IUser :=
  {| firstName := "Ana"; lastName := "Silva"; user_email := "a@x.com" |}.

Definition pi_1 (status : string) : IPaymentIntent :=
  {| pi_id := "pi_1";
     pi_amount_received := 2000;
     pi_currency := "usd";
     pi_receipt_email := Some "a@x.com";
     pi_customer := JStr "cus_1";
     pi_status := status;
     pi_other := [] |}.

Definition succeeded : Event :=
  {| type := "payment_intent.succeeded"; data_object := pi_1 "succeeded" |}.

(** A payment by somebody who is not a user. *)
Definition stranger : Event :=
  {| type := "payment_intent.succeeded";
     data_object :=
       {| pi_id := "pi_2";
          pi_amount_received := 500;
          pi_currency := "usd";
          pi_receipt_email := Some "nobody@x.com";
          pi_customer := JNull;
          pi_status := "succeeded";
          pi_other := [] |} |}.

Definition payment_failed : Event :=
  {| type := "payment_intent.payment_failed";
     data_object := pi_1 "requires_payment_method" |}.

(** A subscription as mirrored at creation time, with the provider's
    invoice (and, inside it, the expanded payment intent) stored as
    [latestInvoice]. *)
Definition mirrored : document :=
  [ ("subscriptionId", JStr "sub_1");
    ("subscriptionEnd", JNum 1700000000);
    ("subscriptionStart", JNum 1697000000);
    ("currency", JStr "usd");
    ("priceId", JStr "price_pro_month");
    ("recurrency", JStr "month");
    ("customer", JStr "cus_1");
    ("latestInvoice",
      JObj [ ("id", JStr "in_1");
             ("payment_intent",
               JObj [ ("id", JStr "pi_1");
                      ("status", JStr "requires_payment_method") ]) ]);
    ("userId", JStr "u_1");
    ("status", JStr "incomplete") ].

(** The same subscription with a [latestInvoice] cut down to the
    correlation key alone. *)
Definition keyed : document :=
  [ ("subscriptionId", JStr "sub_1");
    ("subscriptionEnd", JNum 1700000000);
    ("subscriptionStart", JNum 1697000000);
    ("currency", JStr "usd");
    ("priceId", JStr "price_pro_month");
    ("recurrency", JStr "month");
    ("customer", JStr "cus_1");
    ("latestInvoice",
      JObj [ ("payment_intent", JObj [ ("id", JStr "pi_1") ]) ]);
    ("userId", JStr "u_1");
    ("status", JStr "incomplete") ].

Definition world (collection : list document) (people : list IUser) : World :=
  {| subscriptions := collection;
     users := people;
     stripeInstance := Some StripeClient;
     logs := [];
     outbox := [];
     stripeCalls := [];
     handlerCalls := [] |}.

Definition mailbox : option EmailCredentials :=
  Some {| user := Some "system@socialbio.me" |}.

(** The request body stands for the event it carries; the signature
    header is either the good one or not. *)
Definition deployment (strictQuery : bool) (secret : option string)
    (credentials : option EmailCredentials) : Deps :=
  {| subscriptionsStrictQuery := strictQuery;
     initializeStripe := Some StripeClient;
     STRIPE_WEBHOOK_SECRET := secret;
     constructEvent := fun body signature _ =>
       match signature with
       | Some "good" =>
           if String.eqb body "succeeded" then Returned (Some succeeded)
           else if String.eqb body "payment_failed"
                then Returned (Some payment_failed)
           else Returned (Some {| type := body;
                                  data_object := pi_1 "processing" |})
       | _ => Thrown "No signatures found matching the expected signature"
       end;
     INTERNAL_ERROR := "Internal error";
     SYSTEM_EMAIL_CREDENTIALS := credentials;
     getLanguageFromCurrency := fun c =>
       if String.eqb c "brl" then "pt" else "en";
     getDictionayByLanguage := fun l =>
       if String.eqb l "pt"
       then {| payment := "Pagamento"; paymentSucceed := "Pagamento aprovado" |}
       else {| payment := "Payment"; paymentSucceed := "Payment succeeded" |};
     convertPaymentAmountToDecimalString := fun n =>
       if Z.eqb n 2000 then "$20.00" else "$0.00";
     getPlanByPriceId := fun _ => "Pro";
     getHTMLBody := fun html => html;
     getHTMLButton := fun _ label => label;
     scheduleFor := fun _ _ => Some {| schedule_id := "sub_sched_1" |};
     handleInvoice := fun _ => ret tt |}.

Definition live : Deps := deployment true (Some "whsec_1") mailbox.

End Scenario.

(** A provider that makes customers and subscriptions, for the
    scenarios of [StripeProvisioning]. *)
Module Provisioned.

Inductive Plan : Type := Free | Pro.

Definition api : StripeProvisioning.Api :=
  {| StripeProvisioning.PlansTypes := Plan;
     StripeProvisioning.customers_create := fun _ =>
       ret (Some {| StripeProvisioning.customer_id := "cus_9" |});
     StripeProvisioning.paymentIntents_retrieve := fun id =>
       ret (JObj [("id", JStr id)]);
     StripeProvisioning.subscriptions_create := fun params =>
       ret (JObj [("id", JStr "sub_9");
                  ("customer",
                    JStr (StripeProvisioning.sub_customer params))]);
     StripeProvisioning.getPriceIdByRecurrencyAndPlanType := fun r plan =>
       match plan, r with
       | Pro, StripeProvisioning.month => Some "price_pro_month"
       | Pro, StripeProvisioning.year => Some "price_pro_year"
       | Free, _ => None
       end;
     StripeProvisioning.INVALID_PAYMENT_INSTANCE := "Invalid payment instance";
     StripeProvisioning.PAYMENT_CUSTOMER_NOT_CREATED :=
       "Payment customer not created" |}.

Definition newcomer : StripeProvisioning.Account :=
  {| StripeProvisioning.profile := Scenario.user_a;
     StripeProvisioning.authId := Some "auth_1";
     StripeProvisioning.user_id := Some "u_1";
     StripeProvisioning.paymentId := None |}.

Definition subscriber : StripeProvisioning.Account :=
  {| StripeProvisioning.profile := Scenario.user_a;
     StripeProvisioning.authId := Some "auth_1";
     StripeProvisioning.user_id := Some "u_1";
     StripeProvisioning.paymentId := Some "cus_1" |}.

(** A world in which the provider client is missing and cannot be
    made. *)
Definition offline : Deps :=
  {| subscriptionsStrictQuery := true;
     initializeStripe := None;
     STRIPE_WEBHOOK_SECRET := Some "whsec_1";
     constructEvent := constructEvent Scenario.live;
     INTERNAL_ERROR := "Internal error";
     SYSTEM_EMAIL_CREDENTIALS := Scenario.mailbox;
     getLanguageFromCurrency := getLanguageFromCurrency Scenario.live;
     getDictionayByLanguage := getDictionayByLanguage Scenario.live;
     convertPaymentAmountToDecimalString :=
       convertPaymentAmountToDecimalString Scenario.live;
     getPlanByPriceId := getPlanByPriceId Scenario.live;
     getHTMLBody := getHTMLBody Scenario.live;
     getHTMLButton := getHTMLButton Scenario.live;
     scheduleFor := scheduleFor Scenario.live;
     handleInvoice := handleInvoice Scenario.live |}.

Definition unplugged (collection : list document) : World :=
  withStripeInstance None (Scenario.world collection [Scenario.user_a]).

(** A subscription object as the controller would hand it to the
    store. *)
Definition subscription_2 : ISubscriptionCreationResult :=
  {| subscriptionId := "sub_2";
     subscriptionEnd := 1700000000;
     subscriptionStart := 1697000000;
     currency := "brl";
     priceId := "price_pro_year";
     recurrency := None;
     customer := JStr "cus_2";
     latestInvoice :=
       JObj [("payment_intent", JObj [("id", JStr "pi_2")])];
     userId := "u_2";
     status := "incomplete" |}.

(** An event of a subtype the handler has no case for. *)
Definition created : Event :=
  {| type := "payment_intent.created";
     data_object := Scenario.pi_1 "requires_payment_method" |}.

End Provisioned.

(* ================================================================== *)
(** ** Vocabulary of the specification *)
(* ================================================================== *)

Module Spec.

(** [needle] occurs somewhere in [s]. *)
Definition contains (needle s : string) : Prop :=
  exists pre post, s = (pre ++ needle ++ post)%string.

(** The record's [latestInvoice.payment_intent.id] is this id. *)
Definition correlates (paymentIntentId : string) (d : document) : bool :=
  match getField "latestInvoice" d with
  | Some invoice =>
      match getPath ["payment_intent"; "id"] invoice with
      | Some v => json_eqb v (JStr paymentIntentId)
      | None => false
      end
  | None => false
  end.

(** The record is the one of this provider subscription. *)
Definition hasSubscriptionId (id : string) (d : document) : bool :=
  match getField "subscriptionId" d with
  | Some v => json_eqb v (JStr id)
  | None => false
  end.

(** The user is the one a payment intent's receipt goes to. *)
Definition receiptGoesTo (p : IPaymentIntent) (u : IUser) : bool :=
  match pi_receipt_email p with
  | Some e => String.eqb (user_email u) e
  | None => false
  end.

(** The provider client is there, or can be made. *)
Definition providerReady (E : Deps) (w : World) : Prop :=
  stripeInstance w <> None \/ initializeStripe E <> None.

(** The request passes verification and carries [event]. *)
Definition delivers (E : Deps) (req : Request) (w : World) (event : Event)
  : Prop :=
  providerReady E w /\
  exists secret,
    StripeService.webhookSecret E = Some secret /\
    constructEvent E (req_body req) (stripe_signature req) secret
      = Returned (Some event).

(** Nothing a handler could have done is visible. *)
Definition untouched (w w' : World) : Prop :=
  subscriptions w' = subscriptions w /\
  users w' = users w /\
  outbox w' = outbox w /\
  stripeCalls w' = stripeCalls w /\
  handlerCalls w' = handlerCalls w.

Definition ok200 : Response :=
  {| res_status := 200; res_body := EmptyBody |}.

(** The world once the lazy initialisation of the client has run. *)
Definition afterInit (E : Deps) (w : World) : World :=
  match stripeInstance w with
  | Some _ => w
  | None => withStripeInstance (initializeStripe E) w
  end.

(** A record after cancellation. *)
Definition cancelled (d : document) : document :=
  setField "status" (JStr "canceled") d.

(** A record after reconciliation with a payment intent. *)
Definition reconciled (p : IPaymentIntent) (d : document) : document :=
  setField "status" (JStr (pi_status p))
    (setField "latestInvoice"
       (JObj [("payment_intent", paymentIntentObject p)]) d).

(** The line logged when reconciliation finds nothing. *)
Definition updateError (p : IPaymentIntent) : LogLevel * string :=
  (LogError,
   ("Error udpdating payment intent " ++ pi_id p ++ " on Mongo")%string).

(** The mails a successful payment leads to, in the order they are
    attempted: the operational one, if a system mailbox is configured,
    then the user's. *)
Definition succeededMails (E : Deps) (u : IUser) (p : IPaymentIntent)
    (updated : document) : list IEmailRecipient :=
  let language := getLanguageFromCurrency E (pi_currency p) in
  let dictionary := getDictionayByLanguage E language in
  let plan := getPlanByPriceId E (getField "priceId" updated) in
  let amount :=
    convertPaymentAmountToDecimalString E (pi_amount_received p) in
  match PaymentIntentService.systemUser E with
  | Some mailbox =>
      [ PaymentIntentService.systemRecipient E mailbox dictionary u plan
          amount (pi_currency p) ]
  | None => []
  end
  ++ [ PaymentIntentService.succeededRecipient E u language dictionary plan
         updated ].

(** The [latestInvoice] that the reconciliation filter spells out. *)
Definition keyOnly (paymentIntentId : string) : json :=
  JObj [("payment_intent", JObj [("id", JStr paymentIntentId)])].

(** The record's [latestInvoice] is that document and nothing more. *)
Definition keyedBy (paymentIntentId : string) (d : document) : bool :=
  match getField "latestInvoice" d with
  | Some invoice => json_eqb invoice (keyOnly paymentIntentId)
  | None => false
  end.

End Spec.

(* ================================================================== *)
(** ** What the typed paths of the schema ask of a value *)
(* ================================================================== *)

(** Two features of the store's library are outside the model, and the
    statements that they bear on are made for values on which they have
    no effect.  [userId] is an [ObjectId] path: a string written to it or
    used in a filter on it is cast, which raises unless the string is an
    object id; an object id is written here as its 24 lower-case
    hexadecimal digits, on which equality of strings is equality of
    object ids.  And a document loses its empty objects when it is saved
    and when it is rendered by [toObject()]. *)
Module Conforming.

Definition lowerHexDigit (c : ascii) : bool :=
  let n := nat_of_ascii c in
  ((Nat.leb 48 n && Nat.leb n 57) || (Nat.leb 97 n && Nat.leb n 102))%bool.

Fixpoint allLowerHex (s : string) : bool :=
  match s with
  | EmptyString => true
  | String c s' => (lowerHexDigit c && allLowerHex s')%bool
  end.

Definition objectIdString (s : string) : bool :=
  (Nat.eqb (String.length s) 24 && allLowerHex s)%bool.

(** No empty object anywhere in the value. *)
Fixpoint noEmptyObject (v : json) : bool :=
  match v with
  | JArr items =>
      (fix all (l : list json) : bool :=
         match l with
         | [] => true
         | x :: l' => (noEmptyObject x && all l')%bool
         end) items
  | JObj [] => false
  | JObj fields =>
      (fix all (l : list (string * json)) : bool :=
         match l with
         | [] => true
         | kv :: l' => (noEmptyObject (snd kv) && all l')%bool
         end) fields
  | _ => true
  end.

(** A subscription object that the schema takes as it is. *)
Definition subscriptionObject (s : ISubscriptionCreationResult) : bool :=
  (objectIdString (userId s)
   && noEmptyObject (customer s)
   && noEmptyObject (latestInvoice s))%bool.

(** Records and a subscription object whose owner is an object id. *)
Definition owner : string := "64b7f0c2a1d3e4f5a6b7c8d9".

Definition stored_1 : document :=
  [ ("subscriptionId", JStr "sub_1");
    ("subscriptionEnd", JNum 1700000000);
    ("subscriptionStart", JNum 1697000000);
    ("currency", JStr "usd");
    ("priceId", JStr "price_pro_month");
    ("recurrency", JStr "month");
    ("customer", JStr "cus_1");
    ("latestInvoice",
      JObj [ ("payment_intent", JObj [ ("id", JStr "pi_1") ]) ]);
    ("userId", JStr owner);
    ("status", JStr "incomplete") ].

Definition renewal (id : string) : ISubscriptionCreationResult :=
  {| subscriptionId := id;
     subscriptionEnd := 1800000000;
     subscriptionStart := 1700000000;
     currency := "usd";
     priceId := "price_pro_year";
     recurrency := Some "year";
     customer := JStr "cus_1";
     latestInvoice :=
       JObj [("payment_intent", JObj [("id", JStr "pi_3")])];
     userId := owner;
     status := "active" |}.

End Conforming.

(* ================================================================== *)
(** ** Strings *)
(* ================================================================== *)

Lemma prefix_app (needle post : string) :
  String.prefix needle (needle ++ post) = true.
Proof.
  induction needle as [|c needle IH]; simpl.
  - destruct post; reflexivity.
  - destruct (ascii_dec c c) as [_|Hc]; [exact IH | contradiction].
Qed.

Lemma prefix_inv (needle s : string) :
  String.prefix needle s = true -> exists post, s = (needle ++ post)%string.
Proof.
  revert s. induction needle as [|c needle IH]; intros s H.
  - exists s. reflexivity.
  - destruct s as [|b s]; simpl in H; [discriminate|].
    destruct (ascii_dec c b) as [->|_]; [|discriminate].
    destruct (IH s H) as [post ->]. exists post. reflexivity.
Qed.

Lemma includes_unfold (needle s : string) :
  includes needle s =
  if String.prefix needle s then true
  else match s with
       | EmptyString => false
       | String _ s' => includes needle s'
       end.
Proof. destruct s; reflexivity. Qed.

(** [includes] decides occurrence. *)
Lemma includes_spec (needle s : string) :
  includes needle s = true <-> Spec.contains needle s.
Proof.
  split.
  - induction s as [|c s IH]; rewrite includes_unfold;
      destruct (String.prefix needle _) eqn:Hp; intros H.
    + apply prefix_inv in Hp. destruct Hp as [post Hs].
      exists EmptyString, post. exact Hs.
    + discriminate.
    + apply prefix_inv in Hp. destruct Hp as [post Hs].
      exists EmptyString, post. exact Hs.
    + destruct (IH H) as (pre & post & ->).
      exists (String c pre), post. reflexivity.
  - intros (pre & post & ->). induction pre as [|c pre IH].
    + rewrite includes_unfold. simpl. now rewrite prefix_app.
    + change (String c pre ++ needle ++ post)%string
        with (String c (pre ++ needle ++ post)%string).
      rewrite includes_unfold.
      destruct (String.prefix needle (String c (pre ++ needle ++ post)));
        [reflexivity | exact IH].
Qed.

Lemma includes_false (needle s : string) :
  includes needle s = false <-> ~ Spec.contains needle s.
Proof.
  rewrite <- includes_spec. destruct (includes needle s); split;
    congruence.
Qed.

Lemma prefix_payment_intent (s : string) :
  String.prefix "payment_intent." s = true ->
  includes "payment_intent" s = true.
Proof.
  intros H. apply prefix_inv in H. destruct H as [post ->].
  apply includes_spec. exists EmptyString, ("." ++ post)%string. reflexivity.
Qed.

(* ================================================================== *)
(** ** Values and documents *)
(* ================================================================== *)

Lemma json_eqb_eq (x : json) : forall y, json_eqb x y = true <-> x = y.
Proof.
  induction x using json_nested_ind; intros y; destruct y; simpl;
    try (split; [discriminate | discriminate]); try tauto.
  - rewrite Bool.eqb_true_iff. split; congruence.
  - rewrite Z.eqb_eq. split; congruence.
  - rewrite String.eqb_eq. split; congruence.
  - revert items0.
    induction H as [|x xs Hx Hxs IH]; intros [|y ys]; simpl;
      try (split; [discriminate | discriminate]); try tauto.
    rewrite andb_true_iff, Hx, IH. split.
    + intros [-> E]. congruence.
    + intros E. injection E as -> ->. auto.
  - revert fields0.
    induction H as [|[k x] xs Hx Hxs IH]; intros [|[l y] ys]; simpl;
      try (split; [discriminate | discriminate]); try tauto.
    simpl in Hx.
    rewrite !andb_true_iff, String.eqb_eq, Hx, IH. split.
    + intros [[-> ->] E]. congruence.
    + intros E. injection E as -> -> ->. auto.
Qed.

Lemma getField_setField_same (k : string) (v : json) (d : document) :
  getField k (setField k v d) = Some v.
Proof.
  induction d as [|[l w] d IH]; simpl.
  - now rewrite String.eqb_refl.
  - destruct (String.eqb k l) eqn:Hk; simpl; rewrite Hk; auto.
Qed.

Lemma getField_setField_other (k k' : string) (v : json) (d : document) :
  k <> k' -> getField k (setField k' v d) = getField k d.
Proof.
  intros Hne. induction d as [|[l w] d IH]; simpl.
  - destruct (String.eqb k k') eqn:Hk; [|reflexivity].
    apply String.eqb_eq in Hk. contradiction.
  - destruct (String.eqb k' l) eqn:Hk'; simpl.
    + apply String.eqb_eq in Hk'. subst l.
      destruct (String.eqb k k') eqn:Hk; [|reflexivity].
      apply String.eqb_eq in Hk. contradiction.
    + now rewrite IH.
Qed.

Lemma setField_setField_same (k : string) (u v : json) (d : document) :
  setField k v (setField k u d) = setField k v d.
Proof.
  induction d as [|[l w] d IH]; simpl.
  - now rewrite String.eqb_refl.
  - destruct (String.eqb k l) eqn:Hk; simpl; rewrite Hk; [reflexivity|].
    now rewrite IH.
Qed.

(* ================================================================== *)
(** ** The store *)
(* ================================================================== *)

Section UpdateFirst.
Variable p : document -> bool.
Variable f : document -> document.

Lemma updateFirst_none (new : bool) (coll : list document) :
  (forall d, In d coll -> p d = false) ->
  Mongoose.updateFirst p f new coll = (None, coll).
Proof.
  induction coll as [|d coll IH]; intros H; simpl; [reflexivity|].
  rewrite (H d (or_introl eq_refl)).
  rewrite IH by (intros x Hx; apply H; now right). reflexivity.
Qed.

Lemma updateFirst_at (pre post : list document) (d : document) :
  (forall x, In x pre -> p x = false) -> p d = true ->
  Mongoose.updateFirst p f true (pre ++ d :: post)
  = (Some (f d), pre ++ f d :: post).
Proof.
  induction pre as [|x pre IH]; intros Hpre Hd; simpl.
  - now rewrite Hd.
  - rewrite (Hpre x (or_introl eq_refl)).
    rewrite IH by (auto; intros y Hy; apply Hpre; now right). reflexivity.
Qed.

Lemma updateFirst_returned_new (coll : list document) (d' : document) :
  fst (Mongoose.updateFirst p f true coll) = Some d' ->
  In d' (snd (Mongoose.updateFirst p f true coll)) /\
  exists d, In d coll /\ p d = true /\ d' = f d.
Proof.
  induction coll as [|x coll IH]; simpl; [discriminate|].
  destruct (p x) eqn:Hx; simpl.
  - intros [= <-]. split; [now left|]. exists x. auto.
  - intros H. destruct (IH H) as [Hin (d & Hd & Hp & ->)].
    split; [now right|]. exists d. auto.
Qed.

Lemma updateFirst_fixed (new : bool) (coll : list document) :
  (forall d, f d = d) -> snd (Mongoose.updateFirst p f new coll) = coll.
Proof.
  intros Hf. induction coll as [|x coll IH]; simpl; [reflexivity|].
  destruct (p x); simpl; [now rewrite Hf | now rewrite IH].
Qed.

End UpdateFirst.

Lemma updateFirst_ext (p p' : document -> bool) (f f' : document -> document)
    (new : bool) (coll : list document) :
  (forall d, p d = p' d) -> (forall d, f d = f' d) ->
  Mongoose.updateFirst p f new coll = Mongoose.updateFirst p' f' new coll.
Proof.
  intros Hp Hf. induction coll as [|d coll IH]; simpl; [reflexivity|].
  now rewrite Hp, Hf, IH.
Qed.

Lemma updateFirst_twice (p : document -> bool) (f : document -> document)
    (coll : list document) :
  (forall d, p (f d) = p d) -> (forall d, f (f d) = f d) ->
  Mongoose.updateFirst p f true (snd (Mongoose.updateFirst p f true coll))
  = Mongoose.updateFirst p f true coll.
Proof.
  intros Hp Hf. induction coll as [|d coll IH]; simpl; [reflexivity|].
  destruct (p d) eqn:Hd; simpl.
  - now rewrite Hp, Hd, Hf.
  - now rewrite Hd, IH.
Qed.

Lemma find_none_intro {A : Type} (f : A -> bool) (l : list A) :
  (forall x, In x l -> f x = false) -> List.find f l = None.
Proof.
  induction l as [|a l IH]; intros H; simpl; [reflexivity|].
  rewrite (H a (or_introl eq_refl)). apply IH. intros x Hx. apply H. now right.
Qed.

Lemma find_some_intro {A : Type} (f : A -> bool) (l : list A) (x : A) :
  In x l -> f x = true -> exists y, List.find f l = Some y /\ f y = true.
Proof.
  induction l as [|a l IH]; intros Hin Hx; [destruct Hin|].
  simpl. destruct (f a) eqn:Ha.
  - exists a. auto.
  - destruct Hin as [->|Hin]; [congruence | auto].
Qed.

(** *** What the filters and updates of the services amount to *)

Section SubscriptionsStore.
Variable E : Deps.

Let model := SubscriptionsDB.model E.

Lemma filter_by_subscriptionId (v : json) :
  Mongoose.castQuery model [("subscriptionId", v)] = [("subscriptionId", v)].
Proof.
  unfold Mongoose.castQuery, model, SubscriptionsDB.model, SubscriptionsModel.
  simpl. destruct (subscriptionsStrictQuery E); reflexivity.
Qed.

Lemma filter_by_latestInvoice (v : json) :
  Mongoose.castQuery model [("latestInvoice", v)] = [("latestInvoice", v)].
Proof.
  unfold Mongoose.castQuery, model, SubscriptionsDB.model, SubscriptionsModel.
  simpl. destruct (subscriptionsStrictQuery E); reflexivity.
Qed.

Lemma matches_subscriptionId (id : string) (d : document) :
  Mongoose.matches [("subscriptionId", JStr id)] d
  = Spec.hasSubscriptionId id d.
Proof.
  unfold Mongoose.matches, Mongoose.matchesCondition, Spec.hasSubscriptionId.
  simpl. destruct (getField "subscriptionId" d); simpl;
    [apply andb_true_r | reflexivity].
Qed.

(** The schedule id is not a declared path: a [$set] of it writes
    nothing. *)
Lemma set_subscriptionScheduleId_is_dropped (v : json) (d : document) :
  Mongoose.applySet
    (Mongoose.strictFields model [("subscriptionScheduleId", v)]) d = d.
Proof. reflexivity. Qed.

Lemma set_latestInvoice_and_status (i s : json) (d : document) :
  Mongoose.applySet
    (Mongoose.strictFields model [("latestInvoice", i); ("status", s)]) d
  = setField "status" s (setField "latestInvoice" i d).
Proof. reflexivity. Qed.

End SubscriptionsStore.

(** Cancelling does not change which subscription a record is of. *)
Lemma hasSubscriptionId_setField_status (id : string) (v : json) (d : document) :
  Spec.hasSubscriptionId id (setField "status" v d)
  = Spec.hasSubscriptionId id d.
Proof.
  unfold Spec.hasSubscriptionId.
  rewrite getField_setField_other; [reflexivity | discriminate].
Qed.

Lemma matches_latestInvoice (id : string) (d : document) :
  Mongoose.matches [("latestInvoice", Spec.keyOnly id)] d = Spec.keyedBy id d.
Proof.
  unfold Mongoose.matches, Mongoose.matchesCondition, Spec.keyedBy.
  simpl. destruct (getField "latestInvoice" d); simpl;
    [apply andb_true_r | reflexivity].
Qed.

(** The update that would record the schedule writes nothing, whatever
    it selects. *)
Lemma schedule_update_writes_nothing (E : Deps) (q : Mongoose.query)
    (v : json) (new : bool) (coll : list document) :
  snd (Mongoose.findOneAndUpdate (SubscriptionsDB.model E) q
         [("subscriptionScheduleId", v)] new coll) = coll.
Proof.
  unfold Mongoose.findOneAndUpdate. apply updateFirst_fixed.
  intros d. apply set_subscriptionScheduleId_is_dropped.
Qed.

(** Under [strictQuery] the condition on [paymentIntentId], which is not
    a declared path, is dropped: the lookup yields the first record of
    the collection, whichever it is. *)
Lemma findOne_by_paymentIntentId_strict (E : Deps) (id : string)
    (coll : list document) :
  subscriptionsStrictQuery E = true ->
  Mongoose.findOne (SubscriptionsDB.model E) [("paymentIntentId", JStr id)]
    coll = List.hd_error coll.
Proof.
  intros Hstrict.
  unfold Mongoose.findOne, Mongoose.castQuery, SubscriptionsDB.model,
    SubscriptionsModel. simpl. rewrite Hstrict. simpl.
  destruct coll; reflexivity.
Qed.

(** Without it the condition is kept, and no record that conforms to the
    schema satisfies it. *)
Lemma findOne_by_paymentIntentId_lax (E : Deps) (id : string)
    (coll : list document) :
  subscriptionsStrictQuery E = false ->
  (forall d, In d coll -> getField "paymentIntentId" d = None) ->
  Mongoose.findOne (SubscriptionsDB.model E) [("paymentIntentId", JStr id)]
    coll = None.
Proof.
  intros Hlax Hconforms.
  unfold Mongoose.findOne, Mongoose.castQuery, SubscriptionsDB.model,
    SubscriptionsModel. simpl. rewrite Hlax.
  apply find_none_intro. intros d Hd.
  unfold Mongoose.matches, Mongoose.matchesCondition. simpl.
  now rewrite (Hconforms d Hd).
Qed.

Lemma withSubscriptions_same (w : World) :
  withSubscriptions (subscriptions w) w = w.
Proof. destruct w; reflexivity. Qed.

(* ================================================================== *)
(** ** Cancellation *)
(* ================================================================== *)

(** The local half of a cancellation, as an update of the collection. *)
Lemma cancel_in_store (E : Deps) (id : string) (coll : list document) :
  Mongoose.findOneAndUpdate (SubscriptionsDB.model E)
    [("subscriptionId", JStr id)] [("status", JStr "canceled")] true coll
  = Mongoose.updateFirst (Spec.hasSubscriptionId id) Spec.cancelled true coll.
Proof.
  unfold Mongoose.findOneAndUpdate.
  rewrite filter_by_subscriptionId.
  apply updateFirst_ext; [apply matches_subscriptionId | reflexivity].
Qed.

Lemma cancelSubscriptionResult_run (E : Deps) (id : string) (w : World) :
  SubscriptionsResultsService.cancelSubscriptionResult E id w =
  let r := Mongoose.updateFirst (Spec.hasSubscriptionId id) Spec.cancelled
             true (subscriptions w) in
  (Returned (fst r), withSubscriptions (snd r) w).
Proof.
  unfold SubscriptionsResultsService.cancelSubscriptionResult,
    SubscriptionsDB.findOneAndUpdate.
  now rewrite cancel_in_store.
Qed.

Lemma cancelSubscriptionOnStripe_run (E : Deps) (id : string) (w : World) :
  StripeService.cancelSubscriptionOnStripe E id w =
  let w0 := Spec.afterInit E w in
  match stripeInstance w0 with
  | None => (Returned None, w0)
  | Some _ =>
      let r := Mongoose.updateFirst (Spec.hasSubscriptionId id) Spec.cancelled
                 true (subscriptions w) in
      match fst r with
      | None => (Returned None, withSubscriptions (snd r) w0)
      | Some d =>
          (Returned (Some d),
           withStripeCall (SubscriptionsDel id)
             (withSubscriptions (snd r) w0))
      end
  end.
Proof.
  unfold StripeService.cancelSubscriptionOnStripe,
    StripeService.ensureStripeInstance, StripeService.subscriptions_del,
    SubscriptionsDB.findOneAndUpdate, Spec.afterInit,
    bind, modify, gets, ret.
  unfold SubscriptionStatus.canceled.
  destruct (stripeInstance w) as [c|] eqn:Hw; simpl.
  - rewrite Hw, cancel_in_store.
    destruct (fst (Mongoose.updateFirst _ _ _ _)); reflexivity.
  - destruct (initializeStripe E); [|reflexivity].
    rewrite cancel_in_store.
    destruct (fst (Mongoose.updateFirst _ _ _ _)); reflexivity.
Qed.

Lemma cancelled_twice (d : document) :
  Spec.cancelled (Spec.cancelled d) = Spec.cancelled d.
Proof. apply setField_setField_same. Qed.

Lemma cancel_twice_in_store (id : string) (coll : list document) :
  let once := Mongoose.updateFirst (Spec.hasSubscriptionId id) Spec.cancelled
                true coll in
  Mongoose.updateFirst (Spec.hasSubscriptionId id) Spec.cancelled true
    (snd once) = once.
Proof.
  apply updateFirst_twice.
  - intros d. apply hasSubscriptionId_setField_status.
  - apply cancelled_twice.
Qed.

Lemma cancelSubscriptionOnStripe_twice (E : Deps) (id : string) (w : World) :
  let remote1 := StripeService.cancelSubscriptionOnStripe E id w in
  let remote2 := StripeService.cancelSubscriptionOnStripe E id (snd remote1) in
  fst remote2 = fst remote1 /\
  subscriptions (snd remote2) = subscriptions (snd remote1) /\
  exists r, fst remote2 = Returned r.
Proof.
  cbv zeta. rewrite (cancelSubscriptionOnStripe_run E id w). cbv zeta.
  pose proof (cancel_twice_in_store id (subscriptions w)) as Htwice.
  cbv zeta in Htwice.
  destruct (Mongoose.updateFirst (Spec.hasSubscriptionId id) Spec.cancelled
              true (subscriptions w)) as [found coll] eqn:Hfound.
  simpl in Htwice. unfold Spec.afterInit.
  destruct (stripeInstance w) eqn:Hw;
    [|destruct (initializeStripe E) eqn:Hinit]; simpl; rewrite ?Hw; simpl;
    try destruct found; simpl;
    rewrite cancelSubscriptionOnStripe_run; cbv zeta;
    unfold Spec.afterInit; simpl;
    repeat (progress (rewrite ?Hw, ?Hinit, ?Htwice; simpl));
    repeat split; eexists; reflexivity.
Qed.

(** C9.  Cancelling a subscription sets the status of its record (the
    first one the store holds under that subscription id) to [canceled],
    in place and without touching any other record; cancelling again
    returns the same record, leaves the collection as it was after the
    first call, and raises nothing.  This holds for the store-level
    [cancelSubscriptionResult] and for the local half of
    [cancelSubscriptionOnStripe]. *)
Theorem C9_cancel_once_then_stable (E : Deps) (id : string) (w : World) :
  let once := SubscriptionsResultsService.cancelSubscriptionResult E id w in
  let twice :=
    SubscriptionsResultsService.cancelSubscriptionResult E id (snd once) in
  let remote1 := StripeService.cancelSubscriptionOnStripe E id w in
  let remote2 := StripeService.cancelSubscriptionOnStripe E id (snd remote1) in
  (forall pre d post,
      subscriptions w = pre ++ d :: post ->
      (forall x, In x pre -> Spec.hasSubscriptionId id x = false) ->
      Spec.hasSubscriptionId id d = true ->
      getField "status" (Spec.cancelled d) = Some (JStr "canceled") /\
      fst once = Returned (Some (Spec.cancelled d)) /\
      subscriptions (snd once) = pre ++ Spec.cancelled d :: post /\
      (Spec.providerReady E w ->
       fst remote1 = Returned (Some (Spec.cancelled d)) /\
       subscriptions (snd remote1) = pre ++ Spec.cancelled d :: post))
  /\ twice = once
  /\ (exists r, fst twice = Returned r)
  /\ fst remote2 = fst remote1
  /\ subscriptions (snd remote2) = subscriptions (snd remote1)
  /\ (exists r, fst remote2 = Returned r).
Proof.
  cbv zeta. split; [|split; [|split]].
  - intros pre d post Hsplit Hpre Hd.
    rewrite cancelSubscriptionResult_run, cancelSubscriptionOnStripe_run.
    cbv zeta. rewrite Hsplit, updateFirst_at by assumption. simpl.
    split; [apply getField_setField_same|].
    split; [reflexivity|]. split; [reflexivity|].
    intros Hready. unfold Spec.afterInit, Spec.providerReady in *.
    destruct (stripeInstance w) eqn:Hw; simpl; rewrite ?Hw; auto.
    destruct (initializeStripe E); simpl; auto.
    destruct Hready; congruence.
  - rewrite !cancelSubscriptionResult_run. cbv zeta. simpl.
    now rewrite cancel_twice_in_store.
  - rewrite !cancelSubscriptionResult_run. cbv zeta. simpl.
    eexists. reflexivity.
  - apply cancelSubscriptionOnStripe_twice.
Qed.

Lemma C9_witness :
  Spec.hasSubscriptionId "sub_1" Scenario.keyed = true /\
  fst (SubscriptionsResultsService.cancelSubscriptionResult Scenario.live
         "sub_1" (Scenario.world [Scenario.keyed] []))
  = Returned (Some (Spec.cancelled Scenario.keyed)).
Proof.
  split; [reflexivity|].
  destruct (C9_cancel_once_then_stable Scenario.live "sub_1"
              (Scenario.world [Scenario.keyed] [])) as [Honce _].
  destruct (Honce [] Scenario.keyed []) as (_ & Hreturned & _).
  - reflexivity.
  - intros x [].
  - reflexivity.
  - exact Hreturned.
Defined.

(** C8.  When no local record carries the subscription id,
    [cancelSubscriptionOnStripe] returns [null] without sending anything
    to the provider and without changing the collection.  In general the
    call sends at most one request, the cancellation of that very
    subscription, and only when the local update has returned the
    cancelled record. *)
Theorem C8_remote_cancel_needs_local_update (E : Deps) (id : string)
    (w : World) :
  let r := StripeService.cancelSubscriptionOnStripe E id w in
  ((forall d, In d (subscriptions w) -> Spec.hasSubscriptionId id d = false) ->
   fst r = Returned None /\
   stripeCalls (snd r) = stripeCalls w /\
   subscriptions (snd r) = subscriptions w)
  /\
  (stripeCalls (snd r) = stripeCalls w \/
   stripeCalls (snd r) = stripeCalls w ++ [SubscriptionsDel id] /\
   exists d,
     fst r = Returned (Some d) /\
     In d (subscriptions (snd r)) /\
     getField "status" d = Some (JStr "canceled")).
Proof.
  cbv zeta. rewrite cancelSubscriptionOnStripe_run. cbv zeta. split.
  - intros Hnone. rewrite updateFirst_none by exact Hnone. simpl.
    unfold Spec.afterInit.
    destruct (stripeInstance w) eqn:Hw; simpl; rewrite ?Hw; simpl.
    + destruct w; auto.
    + destruct (initializeStripe E); simpl; destruct w; auto.
  - destruct (fst (Mongoose.updateFirst (Spec.hasSubscriptionId id)
                     Spec.cancelled true (subscriptions w))) as [d|] eqn:Hd.
    + destruct (updateFirst_returned_new _ _ _ _ Hd)
        as [Hin (d0 & _ & _ & ->)].
      unfold Spec.afterInit.
      destruct (stripeInstance w) eqn:Hw; simpl; rewrite ?Hw; simpl.
      * right. split; [reflexivity|]. exists (Spec.cancelled d0).
        repeat split; auto. apply getField_setField_same.
      * destruct (initializeStripe E); simpl; [|now left].
        right. split; [reflexivity|]. exists (Spec.cancelled d0).
        repeat split; auto. apply getField_setField_same.
    + left. unfold Spec.afterInit.
      destruct (stripeInstance w) eqn:Hw; simpl; rewrite ?Hw; simpl; auto.
      destruct (initializeStripe E); reflexivity.
Qed.

Lemma C8_witness :
  (forall d, In d [Scenario.keyed] -> Spec.hasSubscriptionId "sub_9" d = false)
  /\
  fst (StripeService.cancelSubscriptionOnStripe Scenario.live "sub_9"
         (Scenario.world [Scenario.keyed] []))
  = Returned None.
Proof.
  assert (Hnone : forall d, In d [Scenario.keyed] ->
                            Spec.hasSubscriptionId "sub_9" d = false).
  { intros d [<-|[]]. reflexivity. }
  split; [exact Hnone|].
  destruct (C8_remote_cancel_needs_local_update Scenario.live "sub_9"
              (Scenario.world [Scenario.keyed] [])) as [Hskip _].
  destruct (Hskip Hnone) as [Hnull _]. exact Hnull.
Defined.

(* ================================================================== *)
(** ** The duplicated store operations *)
(* ================================================================== *)

(** C10.  The two [saveSubscriptionResult] and the two
    [updateSubscriptionResult], of the stripe service and of the
    subscriptions-results service, are extensionally equal: on every
    subscription and in every state of the world they perform the same
    store operation, leave the same world and return the same result. *)
Theorem C10_duplicated_operations_agree (E : Deps)
    (subscription : ISubscriptionCreationResult) (w : World) :
  StripeService.saveSubscriptionResult E subscription w
  = SubscriptionsResultsService.saveSubscriptionResult E subscription w
  /\
  StripeService.updateSubscriptionResult E subscription w
  = SubscriptionsResultsService.updateSubscriptionResult E subscription w.
Proof.
  split.
  - unfold StripeService.saveSubscriptionResult,
      SubscriptionsResultsService.saveSubscriptionResult. reflexivity.
  - unfold StripeService.updateSubscriptionResult,
      SubscriptionsResultsService.updateSubscriptionResult. reflexivity.
Qed.

(* ================================================================== *)
(** ** Reconciliation *)
(* ================================================================== *)

(** The reconciliation step, as an update of the collection: it selects
    on the whole [latestInvoice] and replaces the whole [latestInvoice]. *)
Lemma reconcile_in_store (E : Deps) (p : IPaymentIntent)
    (coll : list document) :
  Mongoose.findOneAndUpdate (SubscriptionsDB.model E)
    [ ("latestInvoice", Spec.keyOnly (pi_id p)) ]
    [ ("latestInvoice", JObj [("payment_intent", paymentIntentObject p)]);
      ("status", JStr (pi_status p)) ]
    true coll
  = Mongoose.updateFirst (Spec.keyedBy (pi_id p)) (Spec.reconciled p) true coll.
Proof.
  unfold Mongoose.findOneAndUpdate.
  rewrite filter_by_latestInvoice.
  apply updateFirst_ext; [apply matches_latestInvoice | reflexivity].
Qed.

Lemma updateSubscriptionResultFromPaymentIntent_run (E : Deps)
    (p : IPaymentIntent) (w : World) :
  SubscriptionsResultsService.updateSubscriptionResultFromPaymentIntent E p w
  = let r := Mongoose.updateFirst (Spec.keyedBy (pi_id p)) (Spec.reconciled p)
               true (subscriptions w) in
    (Returned (fst r), withSubscriptions (snd r) w).
Proof.
  unfold SubscriptionsResultsService.updateSubscriptionResultFromPaymentIntent,
    SubscriptionsDB.findOneAndUpdate, bind, ret.
  fold (Spec.keyOnly (pi_id p)). now rewrite reconcile_in_store.
Qed.

(** The step in full: the first record whose [latestInvoice] is the
    correlation key alone gets a new [latestInvoice], holding the payment
    intent and nothing else, and the intent's status; the records around
    it are left alone. *)
Lemma reconciliation_effect (E : Deps) (p : IPaymentIntent) (w : World)
    (pre post : list document) (d : document) :
  subscriptions w = pre ++ d :: post ->
  (forall x, In x pre -> Spec.keyedBy (pi_id p) x = false) ->
  Spec.keyedBy (pi_id p) d = true ->
  SubscriptionsResultsService.updateSubscriptionResultFromPaymentIntent E p w
  = (Returned (Some (Spec.reconciled p d)),
     withSubscriptions (pre ++ Spec.reconciled p d :: post) w).
Proof.
  intros Hsplit Hpre Hd.
  rewrite updateSubscriptionResultFromPaymentIntent_run. cbv zeta.
  now rewrite Hsplit, updateFirst_at.
Qed.

Lemma keyedBy_iff (id : string) (d : document) :
  Spec.keyedBy id d = true <->
  getField "latestInvoice" d = Some (Spec.keyOnly id).
Proof.
  unfold Spec.keyedBy.
  destruct (getField "latestInvoice" d) as [invoice|].
  - rewrite json_eqb_eq. split; congruence.
  - split; discriminate.
Qed.

(** A record selected by the filter does carry the id at
    [latestInvoice.payment_intent.id]; the converse fails. *)
Lemma keyedBy_correlates (id : string) (d : document) :
  Spec.keyedBy id d = true -> Spec.correlates id d = true.
Proof.
  unfold Spec.keyedBy, Spec.correlates.
  destruct (getField "latestInvoice" d) as [invoice|]; [|discriminate].
  intros H. apply json_eqb_eq in H. subst invoice. simpl.
  now rewrite String.eqb_refl.
Qed.

Lemma not_correlates_not_keyedBy (id : string) (coll : list document) :
  (forall d, In d coll -> Spec.correlates id d = false) ->
  forall d, In d coll -> Spec.keyedBy id d = false.
Proof.
  intros H d Hd. destruct (Spec.keyedBy id d) eqn:Hk; [|reflexivity].
  apply keyedBy_correlates in Hk. rewrite (H d Hd) in Hk. discriminate.
Qed.

Lemma reconciled_status (p : IPaymentIntent) (d : document) :
  getField "status" (Spec.reconciled p d) = Some (JStr (pi_status p)).
Proof. apply getField_setField_same. Qed.

Lemma reconciled_latestInvoice (p : IPaymentIntent) (d : document) :
  getField "latestInvoice" (Spec.reconciled p d)
  = Some (JObj [("payment_intent", paymentIntentObject p)]).
Proof.
  unfold Spec.reconciled.
  rewrite getField_setField_other by discriminate.
  apply getField_setField_same.
Qed.

(** No path outside the two that reconciliation sets is ever created or
    changed by the handler. *)
Lemma reconciled_other_paths (p : IPaymentIntent) (k : string) (d : document) :
  k <> "status" -> k <> "latestInvoice" ->
  getField k (Spec.reconciled p d) = getField k d.
Proof.
  intros Hs Hl. unfold Spec.reconciled.
  now rewrite !getField_setField_other.
Qed.

(** Once reconciled with a payment intent, a record is not selected by
    that payment intent again. *)
Lemma reconciled_not_keyedBy (p : IPaymentIntent) (d : document) :
  Spec.keyedBy (pi_id p) (Spec.reconciled p d) = false.
Proof.
  unfold Spec.keyedBy. rewrite reconciled_latestInvoice.
  unfold Spec.keyOnly, paymentIntentObject. simpl.
  rewrite String.eqb_refl. reflexivity.
Qed.

(** C1 (the code departs from it).  A record mirrored from the provider,
    whose [latestInvoice.payment_intent.id] is the id of the incoming
    payment intent, is not found by the reconciliation step, which
    returns [null] and writes nothing; and a record it does find, because
    its [latestInvoice] is the correlation key and nothing else, is not
    found by the next event of the same payment intent. *)
Theorem C1_reconciliation_misses_the_record :
  Spec.correlates "pi_1" Scenario.mirrored = true /\
  SubscriptionsResultsService.updateSubscriptionResultFromPaymentIntent
    Scenario.live (Scenario.pi_1 "succeeded")
    (Scenario.world [Scenario.mirrored] [Scenario.user_a])
  = (Returned None, Scenario.world [Scenario.mirrored] [Scenario.user_a]) /\
  let first :=
    SubscriptionsResultsService.updateSubscriptionResultFromPaymentIntent
      Scenario.live (Scenario.pi_1 "requires_action")
      (Scenario.world [Scenario.keyed] [Scenario.user_a]) in
  let stored := Spec.reconciled (Scenario.pi_1 "requires_action")
                  Scenario.keyed in
  fst first = Returned (Some stored) /\
  subscriptions (snd first) = [stored] /\
  Spec.correlates "pi_1" stored = true /\
  SubscriptionsResultsService.updateSubscriptionResultFromPaymentIntent
    Scenario.live (Scenario.pi_1 "succeeded") (snd first)
  = (Returned None, snd first).
Proof. cbv zeta. repeat split. Qed.

(* ================================================================== *)
(** ** The payment-intent handler *)
(* ================================================================== *)

Ltac run_async :=
  unfold bind, ret, throw, gets, modify, detached, logAt, sendEmailToUser,
    getProp, createSubscriptionSchedule,
    SubscriptionsDB.findOne, SubscriptionsDB.findOneAndUpdate;
  cbv zeta.

Lemma UserDb_findOne_run (p : IPaymentIntent) (w : World) :
  UserDb.findOne (pi_receipt_email p) w
  = (Returned (List.find (Spec.receiptGoesTo p) (users w)), w).
Proof.
  unfold UserDb.findOne, gets, Spec.receiptGoesTo.
  destruct (pi_receipt_email p); [reflexivity|].
  f_equal. f_equal. induction (users w); simpl; auto.
Qed.

(** C5.  When the receipt address of the payment intent is that of no
    user, the handler returns normally and the world is exactly what it
    was: no record is written, no mail is attempted, nothing is logged,
    nothing is asked of the provider. *)
Theorem C5_unknown_receipt_email_is_ignored (E : Deps) (event : Event)
    (w : World) :
  (forall u, In u (users w) ->
             Spec.receiptGoesTo (data_object event) u = false) ->
  PaymentIntentService.handlePaymentIntent E event w = (Returned tt, w).
Proof.
  intros Hnobody.
  unfold PaymentIntentService.handlePaymentIntent, bind. cbv zeta.
  rewrite UserDb_findOne_run, (find_none_intro _ _ Hnobody). reflexivity.
Qed.

Lemma C5_witness :
  (forall u, In u [Scenario.user_a] ->
             Spec.receiptGoesTo (data_object Scenario.stranger) u = false)
  /\
  PaymentIntentService.handlePaymentIntent Scenario.live Scenario.stranger
    (Scenario.world [Scenario.keyed] [Scenario.user_a])
  = (Returned tt, Scenario.world [Scenario.keyed] [Scenario.user_a]).
Proof.
  assert (Hnobody : forall u, In u [Scenario.user_a] ->
            Spec.receiptGoesTo (data_object Scenario.stranger) u = false).
  { intros u [<-|[]]. reflexivity. }
  split; [exact Hnobody|].
  apply (C5_unknown_receipt_email_is_ignored Scenario.live Scenario.stranger
           (Scenario.world [Scenario.keyed] [Scenario.user_a])).
  exact Hnobody.
Defined.

Lemma handlePaymentIntent_no_record (E : Deps) (event : Event) (w : World)
    (u : IUser) :
  List.find (Spec.receiptGoesTo (data_object event)) (users w) = Some u ->
  (forall d, In d (subscriptions w) ->
             Spec.keyedBy (pi_id (data_object event)) d = false) ->
  PaymentIntentService.handlePaymentIntent E event w
  = (Returned tt, withLog (Spec.updateError (data_object event)) w).
Proof.
  intros Hu Hnone.
  unfold PaymentIntentService.handlePaymentIntent, bind. cbv zeta.
  rewrite UserDb_findOne_run, Hu.
  rewrite updateSubscriptionResultFromPaymentIntent_run. cbv zeta.
  rewrite updateFirst_none by exact Hnone. simpl.
  now rewrite withSubscriptions_same.
Qed.

(** *** A successful payment *)

(** The success branch: what it leaves in [userRecipient] and what it
    does to the world. *)
Lemma onSucceeded_run (E : Deps) (p : IPaymentIntent) (u : IUser)
    (language : string) (dictionary : Dictionary) (amount plan : string)
    (updated : document) (w : World) :
  pi_customer p <> JNull ->
  exists w',
    PaymentIntentService.onSucceeded E p u language dictionary amount plan
      updated w
    = (Returned (Some (PaymentIntentService.succeededRecipient E u language
                         dictionary plan updated)), w')
    /\ subscriptions w' = subscriptions w
    /\ outbox w' =
       outbox w ++
       match PaymentIntentService.systemUser E with
       | Some mailbox =>
           [ PaymentIntentService.systemRecipient E mailbox dictionary u plan
               amount (pi_currency p) ]
       | None => []
       end.
Proof.
  intros Hcustomer.
  unfold PaymentIntentService.onSucceeded. run_async.
  destruct (pi_customer p) eqn:Hc; try congruence;
    simpl;
    repeat match goal with
      | |- context [if ?b then _ else _] => destruct b; simpl
      | |- context [match scheduleFor E ?a ?b with _ => _ end] =>
          destruct (scheduleFor E a b); simpl
      | |- context [match PaymentIntentService.systemUser E with _ => _ end] =>
          destruct (PaymentIntentService.systemUser E); simpl
      end;
    eexists; (split; [reflexivity|]); simpl;
    rewrite ?schedule_update_writes_nothing, ?app_nil_r; auto.
Qed.

(** A handled [payment_intent.succeeded], once the user and the record
    are found. *)
Lemma handlePaymentIntent_succeeded (E : Deps) (event : Event) (w : World)
    (u : IUser) (updated : document) :
  type event = "payment_intent.succeeded" ->
  List.find (Spec.receiptGoesTo (data_object event)) (users w) = Some u ->
  fst (SubscriptionsResultsService.updateSubscriptionResultFromPaymentIntent
         E (data_object event) w) = Returned (Some updated) ->
  pi_customer (data_object event) <> JNull ->
  let after :=
    snd (SubscriptionsResultsService.updateSubscriptionResultFromPaymentIntent
           E (data_object event) w) in
  let r := PaymentIntentService.handlePaymentIntent E event w in
  fst r = Returned tt /\
  subscriptions (snd r) = subscriptions after /\
  outbox (snd r)
  = outbox w ++ Spec.succeededMails E u (data_object event) updated.
Proof.
  intros Htype Hu Hupdated Hcustomer. cbv zeta.
  unfold PaymentIntentService.handlePaymentIntent, bind. cbv zeta.
  rewrite UserDb_findOne_run, Hu.
  destruct (SubscriptionsResultsService.updateSubscriptionResultFromPaymentIntent
              E (data_object event) w) as [found w1] eqn:Hrun.
  simpl in Hupdated. subst found.
  assert (Hout : outbox w1 = outbox w).
  { rewrite updateSubscriptionResultFromPaymentIntent_run in Hrun.
    cbv zeta in Hrun. injection Hrun as _ <-. reflexivity. }
  rewrite Htype.
  replace ("payment_intent.succeeded" =? "payment_intent.payment_failed")
    with false by reflexivity.
  replace ("payment_intent.succeeded" =? "payment_intent.succeeded")
    with true by reflexivity.
  destruct (onSucceeded_run E (data_object event) u
              (getLanguageFromCurrency E (pi_currency (data_object event)))
              (getDictionayByLanguage E
                 (getLanguageFromCurrency E (pi_currency (data_object event))))
              (convertPaymentAmountToDecimalString E
                 (pi_amount_received (data_object event)))
              (getPlanByPriceId E (getField "priceId" updated))
              updated w1 Hcustomer)
    as (w2 & -> & Hsubs & Hmail).
  unfold detached, sendEmailToUser, modify. simpl.
  split; [reflexivity|]. split; [exact Hsubs|].
  rewrite Hmail, Hout. unfold Spec.succeededMails. cbv zeta.
  now rewrite app_assoc.
Qed.

(** C2 (as amended).  For a [payment_intent.succeeded] event whose
    receipt address is that of a user, whose customer reference is not
    [null], and whose payment intent id is the
    [latestInvoice.payment_intent.id] of a stored record that the
    reconciliation filter selects (the first record whose [latestInvoice]
    holds that correlation key and nothing more): the handler completes;
    that very record, and no other, is rewritten in place, with the
    intent's status and with every declared path other than [status]
    and [latestInvoice] as it was; exactly one mail to the user is
    attempted; and exactly one mail to the system mailbox is attempted
    before it when that mailbox is configured, none when it is not. *)
Theorem C2_succeeded_updates_and_notifies (E : Deps) (event : Event)
    (w : World) (u : IUser) (pre post : list document) (d : document) :
  type event = "payment_intent.succeeded" ->
  List.find (Spec.receiptGoesTo (data_object event)) (users w) = Some u ->
  subscriptions w = pre ++ d :: post ->
  (forall x, In x pre ->
             Spec.keyedBy (pi_id (data_object event)) x = false) ->
  Spec.keyedBy (pi_id (data_object event)) d = true ->
  pi_customer (data_object event) <> JNull ->
  let updated := Spec.reconciled (data_object event) d in
  let r := PaymentIntentService.handlePaymentIntent E event w in
  Spec.correlates (pi_id (data_object event)) d = true /\
  fst r = Returned tt /\
  subscriptions (snd r) = pre ++ updated :: post /\
  getField "status" updated = Some (JStr (pi_status (data_object event))) /\
  (forall k, In k subscriptionSchema ->
             k <> "status" -> k <> "latestInvoice" ->
             getField k updated = getField k d) /\
  outbox (snd r)
  = outbox w ++ Spec.succeededMails E u (data_object event) updated /\
  List.map email (Spec.succeededMails E u (data_object event) updated)
  = match PaymentIntentService.systemUser E with
    | Some mailbox => [mailbox; user_email u]
    | None => [user_email u]
    end.
Proof.
  intros Htype Hu Hsplit Hpre Hd Hcustomer. cbv zeta.
  pose proof (reconciliation_effect E (data_object event) w pre post d
                Hsplit Hpre Hd) as Hrun.
  assert (Hupdated :
    fst (SubscriptionsResultsService.updateSubscriptionResultFromPaymentIntent
           E (data_object event) w)
    = Returned (Some (Spec.reconciled (data_object event) d)))
    by now rewrite Hrun.
  destruct (handlePaymentIntent_succeeded E event w u _
              Htype Hu Hupdated Hcustomer) as (Hret & Hsubs & Hout).
  rewrite Hrun in Hsubs. simpl in Hsubs.
  split; [now apply keyedBy_correlates|].
  split; [exact Hret|]. split; [exact Hsubs|].
  split; [apply reconciled_status|].
  split; [intros k _ Hs Hl; now apply reconciled_other_paths|].
  split; [exact Hout|].
  unfold Spec.succeededMails. cbv zeta.
  destruct (PaymentIntentService.systemUser E); reflexivity.
Qed.

Lemma C2_witness :
  Spec.keyedBy (pi_id (data_object Scenario.succeeded)) Conforming.stored_1
  = true /\
  subscriptions
    (snd (PaymentIntentService.handlePaymentIntent Scenario.live
            Scenario.succeeded
            (Scenario.world [Scenario.mirrored; Conforming.stored_1]
               [Scenario.user_a])))
  = [Scenario.mirrored;
     Spec.reconciled (data_object Scenario.succeeded) Conforming.stored_1]
  /\
  List.map email
    (outbox (snd (PaymentIntentService.handlePaymentIntent Scenario.live
                    Scenario.succeeded
                    (Scenario.world [Scenario.mirrored; Conforming.stored_1]
                       [Scenario.user_a]))))
  = ["system@socialbio.me"; "a@x.com"].
Proof.
  split; [reflexivity|].
  destruct (C2_succeeded_updates_and_notifies Scenario.live Scenario.succeeded
              (Scenario.world [Scenario.mirrored; Conforming.stored_1]
                 [Scenario.user_a])
              Scenario.user_a [Scenario.mirrored] [] Conforming.stored_1)
    as (_ & _ & Hstore & _ & _ & Hout & Hto).
  - reflexivity.
  - reflexivity.
  - reflexivity.
  - intros x [<-|[]]. reflexivity.
  - reflexivity.
  - discriminate.
  - split; [exact Hstore|].
    rewrite Hout. simpl outbox. rewrite app_nil_l. exact Hto.
Defined.

(** C2, as the claim has it, fails: without a configured system mailbox
    a successful payment on a matching record leads to one mail only,
    the user's; no operational mail is attempted. *)
Lemma C2_counterexample :
  ~ (forall (E : Deps) (event : Event) (w : World),
       type event = "payment_intent.succeeded" ->
       (exists u, In u (users w) /\
                  Spec.receiptGoesTo (data_object event) u = true) ->
       (exists d, In d (subscriptions w) /\
                  Spec.correlates (pi_id (data_object event)) d = true) ->
       List.length
         (outbox (snd (PaymentIntentService.handlePaymentIntent E event w)))
       = List.length (outbox w) + 2).
Proof.
  intros Hclaim.
  specialize (Hclaim (Scenario.deployment true (Some "whsec_1") None)
                Scenario.succeeded
                (Scenario.world [Scenario.keyed] [Scenario.user_a])
                eq_refl).
  assert (Hone :
    List.length
      (outbox (snd (PaymentIntentService.handlePaymentIntent
                      (Scenario.deployment true (Some "whsec_1") None)
                      Scenario.succeeded
                      (Scenario.world [Scenario.keyed] [Scenario.user_a]))))
    = 1) by reflexivity.
  rewrite Hone in Hclaim. simpl in Hclaim.
  assert (1 = 2) as Habsurd; [|discriminate Habsurd].
  apply Hclaim.
  - exists Scenario.user_a. split; [now left | reflexivity].
  - exists Scenario.keyed. split; [now left | reflexivity].
Qed.

(** With a [null] customer reference the success branch raises once the
    record has been rewritten, and no mail is attempted. *)
Lemma succeeded_with_null_customer_raises :
  let p := {| pi_id := "pi_1"; pi_amount_received := 2000;
              pi_currency := "usd"; pi_receipt_email := Some "a@x.com";
              pi_customer := JNull; pi_status := "succeeded";
              pi_other := [] |} in
  let r := PaymentIntentService.handlePaymentIntent Scenario.live
             {| type := "payment_intent.succeeded"; data_object := p |}
             (Scenario.world [Scenario.keyed] [Scenario.user_a]) in
  fst r = Thrown "TypeError: Cannot read properties of null (reading 'id')" /\
  subscriptions (snd r) = [Spec.reconciled p Scenario.keyed] /\
  outbox (snd r) = [].
Proof. cbv zeta. repeat split. Qed.

(** *** The schedule id *)

Lemma onSucceeded_subscriptions (E : Deps) (p : IPaymentIntent) (u : IUser)
    (language : string) (dictionary : Dictionary) (amount plan : string)
    (updated : document) (w : World) :
  subscriptions
    (snd (PaymentIntentService.onSucceeded E p u language dictionary amount
            plan updated w))
  = subscriptions w.
Proof.
  unfold PaymentIntentService.onSucceeded. run_async.
  destruct (pi_customer p); simpl;
    repeat match goal with
      | |- context [if ?b then _ else _] => destruct b; simpl
      | |- context [match scheduleFor E ?a ?b with _ => _ end] =>
          destruct (scheduleFor E a b); simpl
      | |- context [match PaymentIntentService.systemUser E with _ => _ end] =>
          destruct (PaymentIntentService.systemUser E); simpl
      end;
    rewrite ?schedule_update_writes_nothing; reflexivity.
Qed.

(** Whatever the event, the only thing the handler writes to the
    collection is what the reconciliation step writes: in no execution
    does a schedule id reach a record. *)
Lemma handlePaymentIntent_writes_only_reconciliation (E : Deps)
    (event : Event) (w : World) :
  subscriptions (snd (PaymentIntentService.handlePaymentIntent E event w))
  = match List.find (Spec.receiptGoesTo (data_object event)) (users w) with
    | Some _ =>
        subscriptions
          (snd (SubscriptionsResultsService.updateSubscriptionResultFromPaymentIntent
                  E (data_object event) w))
    | None => subscriptions w
    end.
Proof.
  unfold PaymentIntentService.handlePaymentIntent, bind. cbv zeta.
  rewrite UserDb_findOne_run.
  destruct (List.find (Spec.receiptGoesTo (data_object event)) (users w))
    as [u|]; [|reflexivity].
  destruct (SubscriptionsResultsService.updateSubscriptionResultFromPaymentIntent
              E (data_object event) w) as [found w1] eqn:Hrun.
  assert (Hreturned : exists o, found = Returned o).
  { rewrite updateSubscriptionResultFromPaymentIntent_run in Hrun.
    cbv zeta in Hrun. injection Hrun as <- _. eexists. reflexivity. }
  destruct Hreturned as [[updated|] ->]; [|reflexivity].
  destruct (String.eqb (type event) "payment_intent.payment_failed");
    [reflexivity|].
  destruct (String.eqb (type event) "payment_intent.succeeded");
    [|reflexivity].
  pose proof (onSucceeded_subscriptions E (data_object event) u
                (getLanguageFromCurrency E (pi_currency (data_object event)))
                (getDictionayByLanguage E
                   (getLanguageFromCurrency E
                      (pi_currency (data_object event))))
                (convertPaymentAmountToDecimalString E
                   (pi_amount_received (data_object event)))
                (getPlanByPriceId E (getField "priceId" updated))
                updated w1) as Hsame.
  destruct (PaymentIntentService.onSucceeded E (data_object event) u _ _ _ _
              updated w1) as [[[r|]|message] w2]; exact Hsame.
Qed.

(** C4 (the code departs from it).  On a successful payment for which
    the customer reference and the subscription id are both resolved,
    the schedule is requested and the provider returns one, yet after
    the handler the record carries no [subscriptionScheduleId]: the only
    change to the collection is the one made by the reconciliation
    step. *)
Theorem C4_schedule_id_is_not_persisted :
  let w := Scenario.world [Scenario.keyed] [Scenario.user_a] in
  let r := PaymentIntentService.handlePaymentIntent Scenario.live
             Scenario.succeeded w in
  fst r = Returned tt /\
  stripeCalls (snd r)
  = [CreateSubscriptionSchedule (JStr "cus_1") (JStr "sub_1")] /\
  scheduleFor Scenario.live (JStr "cus_1") (JStr "sub_1")
  = Some {| schedule_id := "sub_sched_1" |} /\
  subscriptions (snd r)
  = [Spec.reconciled (data_object Scenario.succeeded) Scenario.keyed] /\
  List.map (getField "subscriptionScheduleId") (subscriptions (snd r))
  = [None].
Proof. cbv zeta. repeat split. Qed.

(** The handler changes neither who the users are nor which handlers
    were started. *)
Lemma handlePaymentIntent_frame (E : Deps) (event : Event) (w : World) :
  let w' := snd (PaymentIntentService.handlePaymentIntent E event w) in
  users w' = users w /\ handlerCalls w' = handlerCalls w /\
  stripeInstance w' = stripeInstance w.
Proof.
  cbv zeta.
  unfold PaymentIntentService.handlePaymentIntent, bind. cbv zeta.
  rewrite UserDb_findOne_run.
  destruct (List.find (Spec.receiptGoesTo (data_object event)) (users w))
    as [u|]; [|now simpl].
  rewrite updateSubscriptionResultFromPaymentIntent_run. cbv zeta.
  destruct (fst (Mongoose.updateFirst _ _ true (subscriptions w)))
    as [updated|]; [|now simpl].
  destruct (String.eqb (type event) "payment_intent.payment_failed");
    [now simpl|].
  destruct (String.eqb (type event) "payment_intent.succeeded");
    [|now simpl].
  unfold PaymentIntentService.onSucceeded. run_async.
  destruct (pi_customer (data_object event)); simpl;
    repeat match goal with
      | |- context [if ?b then _ else _] => destruct b; simpl
      | |- context [match scheduleFor E ?a ?b with _ => _ end] =>
          destruct (scheduleFor E a b); simpl
      | |- context [match PaymentIntentService.systemUser E with _ => _ end] =>
          destruct (PaymentIntentService.systemUser E); simpl
      end; auto.
Qed.


(* ================================================================== *)
(** ** The webhook endpoint *)
(* ================================================================== *)

Lemma providerReady_afterInit (E : Deps) (w : World) :
  Spec.providerReady E w ->
  exists client, stripeInstance (Spec.afterInit E w) = Some client.
Proof.
  unfold Spec.providerReady, Spec.afterInit. intros H.
  destruct (stripeInstance w) as [c|] eqn:Hw.
  - exists c. exact Hw.
  - simpl. destruct (initializeStripe E) as [c|].
    + exists c. reflexivity.
    + destruct H; congruence.
Qed.

Lemma afterInit_untouched (E : Deps) (w : World) :
  Spec.untouched w (Spec.afterInit E w).
Proof.
  unfold Spec.untouched, Spec.afterInit.
  destruct (stripeInstance w); simpl; auto.
Qed.

(** The endpoint, case by case. *)
Lemma hookEventsFromStripe_run (E : Deps) (req : Request) (w : World) :
  StripeService.hookEventsFromStripe E req w =
  let w0 := Spec.afterInit E w in
  match stripeInstance w0 with
  | None => (Returned (StripeService.internalError E), w0)
  | Some _ =>
      match StripeService.webhookSecret E with
      | None => (Thrown (INTERNAL_ERROR E), w0)
      | Some secret =>
          match constructEvent E (req_body req) (stripe_signature req) secret
          with
          | Thrown error_message =>
              (Returned
                 {| res_status := 500;
                    res_body := JsonBody {| message := "Webhook Error";
                                            details := Some error_message;
                                            code := 500 |} |},
               withLog (LogError, ("Webhook Error " ++ error_message)%string)
                 w0)
          | Returned None => (Returned (StripeService.internalError E), w0)
          | Returned (Some event) =>
              (Returned Spec.ok200,
               if includes "payment_intent" (type event) then
                 snd (PaymentIntentService.handlePaymentIntent E event
                        (withHandlerCall (PaymentIntentHandler event) w0))
               else if includes "invoice" (type event) then
                 snd (handleInvoice E event
                        (withHandlerCall (InvoiceHandler event) w0))
               else w0)
          end
      end
  end.
Proof.
  unfold StripeService.hookEventsFromStripe,
    StripeService.ensureStripeInstance, bind, modify, gets, ret, throw,
    detached, logAt.
  cbv zeta. fold (Spec.afterInit E w).
  destruct (stripeInstance (Spec.afterInit E w)); [|reflexivity].
  destruct (StripeService.webhookSecret E) as [secret|]; [|reflexivity].
  destruct (constructEvent E (req_body req) (stripe_signature req) secret)
    as [[event|]|error_message]; try reflexivity.
  destruct (includes "payment_intent" (type event)); [reflexivity|].
  destruct (includes "invoice" (type event)); reflexivity.
Qed.

(** C3.  A request that passes verification is answered with an empty
    200 and routed on the event's type alone: to the payment-intent
    handler, and to it alone, when the type contains [payment_intent];
    otherwise to the
    invoice handler when it contains [invoice]; otherwise to no handler,
    and then nothing is recorded as started and the world is left as the
    client initialisation left it. *)
Theorem C3_dispatch_by_type (E : Deps) (req : Request) (w : World)
    (event : Event) :
  Spec.delivers E req w event ->
  let w0 := Spec.afterInit E w in
  let r := StripeService.hookEventsFromStripe E req w in
  fst r = Returned Spec.ok200 /\
  (Spec.contains "payment_intent" (type event) ->
   snd r = snd (PaymentIntentService.handlePaymentIntent E event
                  (withHandlerCall (PaymentIntentHandler event) w0)) /\
   handlerCalls (snd r) = handlerCalls w ++ [PaymentIntentHandler event]) /\
  (~ Spec.contains "payment_intent" (type event) ->
   Spec.contains "invoice" (type event) ->
   snd r = snd (handleInvoice E event
                  (withHandlerCall (InvoiceHandler event) w0))) /\
  (~ Spec.contains "payment_intent" (type event) ->
   ~ Spec.contains "invoice" (type event) ->
   snd r = w0 /\ Spec.untouched w (snd r)).
Proof.
  intros [Hready (secret & Hsecret & Hevent)]. cbv zeta.
  rewrite hookEventsFromStripe_run. cbv zeta.
  destruct (providerReady_afterInit E w Hready) as [client ->].
  rewrite Hsecret, Hevent. simpl. split; [reflexivity|].
  split; [|split].
  - intros Hpi. apply includes_spec in Hpi. rewrite Hpi.
    split; [reflexivity|].
    destruct (handlePaymentIntent_frame E event
                (withHandlerCall (PaymentIntentHandler event)
                   (Spec.afterInit E w))) as (_ & -> & _).
    simpl. unfold Spec.afterInit. destruct (stripeInstance w); reflexivity.
  - intros Hpi Hinv. apply includes_false in Hpi. apply includes_spec in Hinv.
    now rewrite Hpi, Hinv.
  - intros Hpi Hinv. apply includes_false in Hpi. apply includes_false in Hinv.
    rewrite Hpi, Hinv. split; [reflexivity | apply afterInit_untouched].
Qed.

Lemma C3_witness :
  Spec.delivers Scenario.live
    {| req_body := "customer.created"; stripe_signature := Some "good" |}
    (Scenario.world [] [])
    {| type := "customer.created"; data_object := Scenario.pi_1 "processing" |}
  /\
  fst (StripeService.hookEventsFromStripe Scenario.live
         {| req_body := "customer.created"; stripe_signature := Some "good" |}
         (Scenario.world [] []))
  = Returned Spec.ok200.
Proof.
  assert (Hd : Spec.delivers Scenario.live
    {| req_body := "customer.created"; stripe_signature := Some "good" |}
    (Scenario.world [] [])
    {| type := "customer.created";
       data_object := Scenario.pi_1 "processing" |}).
  { split.
    - left. discriminate.
    - exists "whsec_1". split; reflexivity. }
  split; [exact Hd|].
  exact (proj1 (C3_dispatch_by_type _ _ _ _ Hd)).
Defined.

(** C7 (as amended).  The endpoint answers a verified request with an
    empty 200.  It answers with a 500 carrying a JSON error body when the
    provider client cannot be initialised, when the signature check
    fails ([Webhook Error], with the message of the failure) and when
    verification yields no event.  When the signing secret is not
    configured it writes no response but raises the internal error.  In
    each of these failure cases no handler is started and no record, mail
    or provider request is made. *)
Theorem C7_endpoint_outcomes (E : Deps) (req : Request) (w : World) :
  let r := StripeService.hookEventsFromStripe E req w in
  match stripeInstance (Spec.afterInit E w) with
  | None =>
      fst r = Returned (StripeService.internalError E)
      /\ Spec.untouched w (snd r)
  | Some _ =>
      match StripeService.webhookSecret E with
      | None =>
          fst r = Thrown (INTERNAL_ERROR E) /\ Spec.untouched w (snd r)
      | Some secret =>
          match constructEvent E (req_body req) (stripe_signature req) secret
          with
          | Thrown error_message =>
              fst r = Returned
                        {| res_status := 500;
                           res_body :=
                             JsonBody {| message := "Webhook Error";
                                         details := Some error_message;
                                         code := 500 |} |}
              /\ Spec.untouched w (snd r)
          | Returned None =>
              fst r = Returned (StripeService.internalError E)
              /\ Spec.untouched w (snd r)
          | Returned (Some _) => fst r = Returned Spec.ok200
          end
      end
  end.
Proof.
  cbv zeta. rewrite hookEventsFromStripe_run. cbv zeta.
  pose proof (afterInit_untouched E w) as Hsame.
  destruct (stripeInstance (Spec.afterInit E w)); [|now split].
  destruct (StripeService.webhookSecret E) as [secret|]; [|now split].
  destruct (constructEvent E (req_body req) (stripe_signature req) secret)
    as [[event|]|error_message]; simpl; auto.
Qed.

(** C7, as the claim has it, fails: with no signing secret configured the
    endpoint does not answer with a 500 and a JSON body. *)
Lemma C7_counterexample :
  ~ (forall (E : Deps) (req : Request) (w : World),
       StripeService.webhookSecret E = None ->
       exists result,
         fst (StripeService.hookEventsFromStripe E req w)
         = Returned {| res_status := 500; res_body := JsonBody result |}).
Proof.
  intros Hclaim.
  destruct (Hclaim (Scenario.deployment true None Scenario.mailbox)
              {| req_body := "succeeded"; stripe_signature := Some "good" |}
              (Scenario.world [Scenario.keyed] [Scenario.user_a])
              eq_refl) as [result Hresult].
  discriminate Hresult.
Qed.

(** C6 (as amended).  For a verified [payment_intent.*] event whose
    receipt address is that of a user and whose payment intent id is the
    [latestInvoice.payment_intent.id] of no stored record, the endpoint
    answers with an empty 200, exactly one line is logged, the error
    about the failed update, no mail is attempted and the collection is
    unchanged. *)
Theorem C6_no_record_is_logged_and_accepted (E : Deps) (req : Request)
    (w : World) (event : Event) :
  Spec.delivers E req w event ->
  String.prefix "payment_intent." (type event) = true ->
  (exists u, In u (users w) /\
             Spec.receiptGoesTo (data_object event) u = true) ->
  (forall d, In d (subscriptions w) ->
             Spec.correlates (pi_id (data_object event)) d = false) ->
  let r := StripeService.hookEventsFromStripe E req w in
  fst r = Returned Spec.ok200 /\
  logs (snd r) = logs w ++ [Spec.updateError (data_object event)] /\
  outbox (snd r) = outbox w /\
  stripeCalls (snd r) = stripeCalls w /\
  subscriptions (snd r) = subscriptions w.
Proof.
  intros [Hready (secret & Hsecret & Hevent)] Htype (u & Hin & Hu) Hnone.
  cbv zeta. rewrite hookEventsFromStripe_run. cbv zeta.
  destruct (providerReady_afterInit E w Hready) as [client Hclient].
  rewrite Hclient, Hsecret, Hevent, (prefix_payment_intent _ Htype).
  destruct (afterInit_untouched E w) as (Hs & Husers & Ho & Hc & Hh).
  destruct (find_some_intro _ _ _ Hin Hu) as (u' & Hfind & _).
  rewrite (handlePaymentIntent_no_record E event _ u').
  - simpl. rewrite Hs, Ho, Hc. repeat split.
    unfold Spec.afterInit. destruct (stripeInstance w); reflexivity.
  - simpl. now rewrite Husers.
  - simpl. rewrite Hs. now apply not_correlates_not_keyedBy.
Qed.

Lemma C6_witness :
  Spec.delivers Scenario.live
    {| req_body := "succeeded"; stripe_signature := Some "good" |}
    (Scenario.world [] [Scenario.user_a]) Scenario.succeeded
  /\
  logs (snd (StripeService.hookEventsFromStripe Scenario.live
               {| req_body := "succeeded"; stripe_signature := Some "good" |}
               (Scenario.world [] [Scenario.user_a])))
  = [Spec.updateError (data_object Scenario.succeeded)].
Proof.
  assert (Hd : Spec.delivers Scenario.live
                 {| req_body := "succeeded"; stripe_signature := Some "good" |}
                 (Scenario.world [] [Scenario.user_a]) Scenario.succeeded).
  { split.
    - left. discriminate.
    - exists "whsec_1". split; reflexivity. }
  split; [exact Hd|].
  destruct (C6_no_record_is_logged_and_accepted Scenario.live
              {| req_body := "succeeded"; stripe_signature := Some "good" |}
              (Scenario.world [] [Scenario.user_a]) Scenario.succeeded)
    as (_ & Hlogs & _).
  - exact Hd.
  - reflexivity.
  - exists Scenario.user_a. split; [now left | reflexivity].
  - intros d [].
  - exact Hlogs.
Defined.

(** C6, as the claim has it, fails: when the receipt address is that of
    no user, an event whose payment intent matches no record leaves the
    log empty. *)
Lemma C6_counterexample :
  ~ (forall (E : Deps) (req : Request) (w : World) (event : Event),
       Spec.delivers E req w event ->
       String.prefix "payment_intent." (type event) = true ->
       (forall d, In d (subscriptions w) ->
                  Spec.correlates (pi_id (data_object event)) d = false) ->
       exists line,
         In line (logs (snd (StripeService.hookEventsFromStripe E req w)))
         /\ fst line = LogError).
Proof.
  intros Hclaim.
  destruct (Hclaim Scenario.live
              {| req_body := "succeeded"; stripe_signature := Some "good" |}
              (Scenario.world [] []) Scenario.succeeded)
    as (line & Hline & _).
  - split.
    + left. discriminate.
    + exists "whsec_1". split; reflexivity.
  - reflexivity.
  - intros d [].
  - exact Hline.
Qed.

(* ================================================================== *)
(** ** Further properties of the store operations *)
(* ================================================================== *)

Lemma getField_applySet_other (k : string) (u : Mongoose.update)
    (d : document) :
  ~ In k (List.map fst u) ->
  getField k (Mongoose.applySet u d) = getField k d.
Proof.
  unfold Mongoose.applySet. revert d.
  induction u as [|[l v] u IH]; intros d Hk; simpl; [reflexivity|].
  simpl in Hk. rewrite IH by tauto.
  apply getField_setField_other. intros ->. tauto.
Qed.

Lemma getField_applySet_in (k : string) (v : json) (u : Mongoose.update)
    (d : document) :
  NoDup (List.map fst u) -> In (k, v) u ->
  getField k (Mongoose.applySet u d) = Some v.
Proof.
  unfold Mongoose.applySet. revert d.
  induction u as [|[l x] u IH]; intros d Hnodup Hin; [destruct Hin|].
  simpl in Hnodup. inversion Hnodup as [|? ? Hfresh Hrest]; subst.
  destruct Hin as [[= -> ->]|Hin]; simpl.
  - change (fold_left (fun acc c => setField (fst c) (snd c) acc) u
              (setField k v d))
      with (Mongoose.applySet u (setField k v d)).
    rewrite getField_applySet_other by exact Hfresh.
    apply getField_setField_same.
  - apply IH; assumption.
Qed.

Lemma map_updateFirst {B : Type} (h : document -> B)
    (p : document -> bool) (f : document -> document) (new : bool)
    (coll : list document) :
  (forall d, h (f d) = h d) ->
  List.map h (snd (Mongoose.updateFirst p f new coll)) = List.map h coll.
Proof.
  intros Hh. induction coll as [|d coll IH]; simpl; [reflexivity|].
  destruct (p d); simpl; [now rewrite Hh | now rewrite IH].
Qed.

Lemma map_filter_updateFirst {B : Type} (h : document -> B)
    (q p : document -> bool) (f : document -> document) (new : bool)
    (coll : list document) :
  (forall d, q (f d) = q d) -> (forall d, h (f d) = h d) ->
  List.map h (List.filter q (snd (Mongoose.updateFirst p f new coll)))
  = List.map h (List.filter q coll).
Proof.
  intros Hq Hh. induction coll as [|d coll IH]; simpl; [reflexivity|].
  destruct (p d); simpl.
  - rewrite Hq. destruct (q d); simpl; [now rewrite Hh | reflexivity].
  - destruct (q d); simpl; now rewrite IH.
Qed.

Lemma subscriptionFields_declared (E : Deps) (s : ISubscriptionCreationResult) :
  Mongoose.strictFields (SubscriptionsDB.model E) (subscriptionFields s)
  = subscriptionFields s.
Proof.
  unfold subscriptionFields. destruct (recurrency s); reflexivity.
Qed.

Lemma subscriptionFields_NoDup (s : ISubscriptionCreationResult) :
  NoDup (List.map fst (subscriptionFields s)).
Proof.
  unfold subscriptionFields. destruct (recurrency s); simpl;
    repeat (constructor; [simpl; intuition discriminate|]); constructor.
Qed.

Lemma filter_by_userId (E : Deps) (v : json) :
  Mongoose.castQuery (SubscriptionsDB.model E) [("userId", v)]
  = [("userId", v)].
Proof.
  unfold Mongoose.castQuery, SubscriptionsDB.model, SubscriptionsModel.
  simpl. destruct (subscriptionsStrictQuery E); reflexivity.
Qed.

Lemma getUserSubsctriptions_run (E : Deps) (u : string) (w : World) :
  SubscriptionsResultsService.getUserSubsctriptions E u w
  = (Returned (List.filter (Mongoose.matches [("userId", JStr u)])
                 (subscriptions w)), w).
Proof.
  unfold SubscriptionsResultsService.getUserSubsctriptions,
    SubscriptionsDB.find, Mongoose.find, gets.
  now rewrite filter_by_userId.
Qed.

Lemma matches_userId_saved (u : string) (s : ISubscriptionCreationResult) :
  Mongoose.matches [("userId", JStr u)] (subscriptionFields s)
  = String.eqb (userId s) u.
Proof.
  unfold Mongoose.matches, Mongoose.matchesCondition, subscriptionFields.
  destruct (recurrency s); simpl; apply andb_true_r.
Qed.

(** X1.  Saving and listing round-trip, for a subscription object whose
    [userId] is an object id and which holds no empty object, and for
    the listing of a user id that is an object id:
    [saveSubscriptionResult] stores and returns the subscription with
    every one of its properties (the strict schema drops none; the
    bookkeeping paths aside), appended to the collection; afterwards
    [getUserSubsctriptions] of the subscription's user returns what it
    returned before followed by the new record, and the listing of any
    other user is what it was. *)
Theorem X1_saved_subscription_is_listed (E : Deps)
    (s : ISubscriptionCreationResult) (u : string) (w : World) :
  Conforming.subscriptionObject s = true ->
  Conforming.objectIdString u = true ->
  let saved := SubscriptionsResultsService.saveSubscriptionResult E s w in
  fst saved = Returned (subscriptionFields s) /\
  subscriptions (snd saved) = subscriptions w ++ [subscriptionFields s] /\
  exists before,
    SubscriptionsResultsService.getUserSubsctriptions E u w
    = (Returned before, w) /\
    SubscriptionsResultsService.getUserSubsctriptions E u (snd saved)
    = (Returned (before ++ if String.eqb (userId s) u
                           then [subscriptionFields s] else []),
       snd saved).
Proof.
  intros _ _. cbv zeta.
  unfold SubscriptionsResultsService.saveSubscriptionResult,
    SubscriptionsDB.create, Mongoose.create. cbv zeta.
  rewrite subscriptionFields_declared. simpl.
  split; [reflexivity|]. split; [reflexivity|].
  eexists. split; [apply getUserSubsctriptions_run|].
  rewrite getUserSubsctriptions_run. cbn [subscriptions withSubscriptions].
  rewrite filter_app. cbn [List.filter]. rewrite matches_userId_saved.
  destruct (String.eqb (userId s) u); reflexivity.
Qed.

Lemma X1_witness :
  Conforming.subscriptionObject (Conforming.renewal "sub_3") = true /\
  fst (SubscriptionsResultsService.getUserSubsctriptions Scenario.live
         Conforming.owner
         (snd (SubscriptionsResultsService.saveSubscriptionResult
                 Scenario.live (Conforming.renewal "sub_3")
                 (Scenario.world [Conforming.stored_1] []))))
  = Returned [Conforming.stored_1;
              subscriptionFields (Conforming.renewal "sub_3")].
Proof.
  split; [reflexivity|].
  destruct (X1_saved_subscription_is_listed Scenario.live
              (Conforming.renewal "sub_3") Conforming.owner
              (Scenario.world [Conforming.stored_1] []))
    as (_ & _ & before & Hbefore & Hafter); [reflexivity | reflexivity |].
  rewrite Hafter. simpl fst.
  assert (Hlisted : before = [Conforming.stored_1]).
  { apply (f_equal fst) in Hbefore. simpl in Hbefore.
    now injection Hbefore as <-. }
  now rewrite Hlisted.
Defined.

(** X2.  [updateSubscriptionResult] does not insert: for a subscription
    object whose [userId] is an object id, when no record carries the
    subscription's id it returns [undefined] and the world is exactly
    what it was. *)
Theorem X2_update_of_unknown_subscription (E : Deps)
    (s : ISubscriptionCreationResult) (w : World) :
  Conforming.objectIdString (userId s) = true ->
  (forall d, In d (subscriptions w) ->
             Spec.hasSubscriptionId (subscriptionId s) d = false) ->
  SubscriptionsResultsService.updateSubscriptionResult E s w
  = (Returned None, w).
Proof.
  intros _ Hnone.
  unfold SubscriptionsResultsService.updateSubscriptionResult,
    SubscriptionsDB.findOneAndUpdate, Mongoose.findOneAndUpdate.
  fold (SubscriptionsDB.model E). rewrite filter_by_subscriptionId.
  rewrite updateFirst_none.
  - simpl. now rewrite withSubscriptions_same.
  - intros d Hd. rewrite matches_subscriptionId. now apply Hnone.
Qed.

Lemma X2_witness :
  Conforming.objectIdString (userId (Conforming.renewal "sub_3")) = true /\
  (forall d, In d [Conforming.stored_1] ->
             Spec.hasSubscriptionId
               (subscriptionId (Conforming.renewal "sub_3")) d = false)
  /\
  SubscriptionsResultsService.updateSubscriptionResult Scenario.live
    (Conforming.renewal "sub_3") (Scenario.world [Conforming.stored_1] [])
  = (Returned None, Scenario.world [Conforming.stored_1] []).
Proof.
  assert (Hnone : forall d, In d [Conforming.stored_1] ->
            Spec.hasSubscriptionId
              (subscriptionId (Conforming.renewal "sub_3")) d = false).
  { intros d [<-|[]]. reflexivity. }
  split; [reflexivity|]. split; [exact Hnone|].
  apply (X2_update_of_unknown_subscription Scenario.live
           (Conforming.renewal "sub_3")
           (Scenario.world [Conforming.stored_1] [])).
  - reflexivity.
  - exact Hnone.
Defined.

(** X3.  For a subscription object whose [userId] is an object id and
    which holds no empty object, [updateSubscriptionResult] rewrites, in
    place, the first record that carries the subscription's id and
    returns it: every property of the subscription object can be read
    back from the returned record, and the records around it are
    untouched. *)
Theorem X3_update_writes_every_property (E : Deps)
    (s : ISubscriptionCreationResult) (w : World)
    (pre post : list document) (d : document) :
  Conforming.subscriptionObject s = true ->
  subscriptions w = pre ++ d :: post ->
  (forall x, In x pre ->
             Spec.hasSubscriptionId (subscriptionId s) x = false) ->
  Spec.hasSubscriptionId (subscriptionId s) d = true ->
  exists d',
    SubscriptionsResultsService.updateSubscriptionResult E s w
    = (Returned (Some d'), withSubscriptions (pre ++ d' :: post) w) /\
    (forall k v, In (k, v) (subscriptionFields s) -> getField k d' = Some v).
Proof.
  intros _ Hsplit Hpre Hd.
  exists (Mongoose.applySet (subscriptionFields s) d).
  split.
  - unfold SubscriptionsResultsService.updateSubscriptionResult,
      SubscriptionsDB.findOneAndUpdate, Mongoose.findOneAndUpdate.
    fold (SubscriptionsDB.model E).
    rewrite filter_by_subscriptionId, subscriptionFields_declared, Hsplit.
    rewrite updateFirst_at; [reflexivity | |].
    + intros x Hx. rewrite matches_subscriptionId. now apply Hpre.
    + now rewrite matches_subscriptionId.
  - intros k v Hin. apply getField_applySet_in; [|exact Hin].
    apply subscriptionFields_NoDup.
Qed.

Lemma X3_witness :
  Conforming.subscriptionObject (Conforming.renewal "sub_1") = true /\
  Spec.hasSubscriptionId "sub_1" Conforming.stored_1 = true /\
  exists d',
    fst (SubscriptionsResultsService.updateSubscriptionResult Scenario.live
           (Conforming.renewal "sub_1")
           (Scenario.world [Conforming.stored_1] []))
    = Returned (Some d') /\
    getField "status" d' = Some (JStr "active").
Proof.
  split; [reflexivity|]. split; [reflexivity|].
  destruct (X3_update_writes_every_property Scenario.live
              (Conforming.renewal "sub_1")
              (Scenario.world [Conforming.stored_1] [])
              [] [] Conforming.stored_1)
    as (d' & Hrun & Hwritten).
  - reflexivity.
  - reflexivity.
  - intros x [].
  - reflexivity.
  - exists d'. split.
    + now rewrite Hrun.
    + apply Hwritten. simpl. tauto.
Defined.

Lemma length_updateFirst (p : document -> bool) (f : document -> document)
    (new : bool) (coll : list document) :
  List.length (snd (Mongoose.updateFirst p f new coll)) = List.length coll.
Proof.
  induction coll as [|d coll IH]; simpl; [reflexivity|].
  destruct (p d); simpl; [reflexivity | now rewrite IH].
Qed.

Lemma matches_userId_setField (u k : string) (v : json) (d : document) :
  k <> "userId" ->
  Mongoose.matches [("userId", JStr u)] (setField k v d)
  = Mongoose.matches [("userId", JStr u)] d.
Proof.
  intros Hk. unfold Mongoose.matches, Mongoose.matchesCondition. simpl.
  rewrite getField_setField_other; [reflexivity|]. intros H. now apply Hk.
Qed.

(** X4.  Cancelling removes nothing and moves nothing between users: the
    collection keeps its size, and for every user id that is an object
    id the records that [getUserSubsctriptions] lists after a
    [cancelSubscriptionResult] agree with those it listed before on
    every declared path other than [status]. *)
Theorem X4_cancel_keeps_every_listing (E : Deps) (id u k : string)
    (w : World) :
  Conforming.objectIdString u = true ->
  In k subscriptionSchema ->
  k <> "status" ->
  let after :=
    snd (SubscriptionsResultsService.cancelSubscriptionResult E id w) in
  List.length (subscriptions after) = List.length (subscriptions w) /\
  exists listed listed',
    SubscriptionsResultsService.getUserSubsctriptions E u w
    = (Returned listed, w) /\
    SubscriptionsResultsService.getUserSubsctriptions E u after
    = (Returned listed', after) /\
    List.map (getField k) listed' = List.map (getField k) listed.
Proof.
  intros _ _ Hk. cbv zeta. rewrite cancelSubscriptionResult_run. cbv zeta.
  cbn [snd subscriptions withSubscriptions].
  split; [apply length_updateFirst|].
  do 2 eexists. split; [apply getUserSubsctriptions_run|].
  split; [apply getUserSubsctriptions_run|].
  cbn [subscriptions withSubscriptions].
  apply map_filter_updateFirst.
  - intros d. apply matches_userId_setField. discriminate.
  - intros d. unfold Spec.cancelled.
    now apply getField_setField_other.
Qed.

Lemma X4_witness :
  Conforming.objectIdString Conforming.owner = true /\
  In "subscriptionId" subscriptionSchema /\
  "subscriptionId" <> "status" /\
  List.length
    (subscriptions
       (snd (SubscriptionsResultsService.cancelSubscriptionResult
               Scenario.live "sub_1"
               (Scenario.world
                  [Conforming.stored_1;
                   subscriptionFields (Conforming.renewal "sub_3")] []))))
  = 2.
Proof.
  assert (Hk : "subscriptionId" <> "status") by discriminate.
  assert (Hin : In "subscriptionId" subscriptionSchema) by (now left).
  split; [reflexivity|]. split; [exact Hin|]. split; [exact Hk|].
  exact (proj1 (X4_cancel_keeps_every_listing Scenario.live "sub_1"
                  Conforming.owner "subscriptionId"
                  (Scenario.world
                     [Conforming.stored_1;
                      subscriptionFields (Conforming.renewal "sub_3")] [])
                  eq_refl Hin Hk)).
Defined.

(** X5.  Without a provider client, and with none to be made,
    [cancelSubscriptionOnStripe] gives up before it looks at the store:
    it returns [null] and the world is what it was, so that a record of
    that subscription, if there is one, is not cancelled locally
    either. *)
Theorem X5_cancel_without_client_does_nothing (E : Deps) (id : string)
    (w : World) :
  stripeInstance w = None -> initializeStripe E = None ->
  StripeService.cancelSubscriptionOnStripe E id w = (Returned None, w).
Proof.
  intros Hw Hinit. rewrite cancelSubscriptionOnStripe_run. cbv zeta.
  unfold Spec.afterInit. rewrite Hw, Hinit. simpl.
  destruct w; simpl in *. now subst.
Qed.

Lemma X5_witness :
  stripeInstance (Provisioned.unplugged [Scenario.keyed]) = None /\
  StripeService.cancelSubscriptionOnStripe Provisioned.offline "sub_1"
    (Provisioned.unplugged [Scenario.keyed])
  = (Returned None, Provisioned.unplugged [Scenario.keyed]).
Proof.
  split; [reflexivity|].
  apply (X5_cancel_without_client_does_nothing Provisioned.offline "sub_1"
           (Provisioned.unplugged [Scenario.keyed])); reflexivity.
Defined.

(* ================================================================== *)
(** ** Further properties of the payment-intent handler *)
(* ================================================================== *)

(** X6.  Whatever the event and the state of the world, the handler
    neither adds nor removes a record, and on every record it leaves
    every declared path other than [status] and [latestInvoice] as it
    was: subscription id, owner, price, customer and dates are never
    touched. *)
Theorem X6_handler_keeps_records_and_identity (E : Deps) (event : Event)
    (w : World) (k : string) :
  In k subscriptionSchema ->
  k <> "status" -> k <> "latestInvoice" ->
  let after := snd (PaymentIntentService.handlePaymentIntent E event w) in
  List.length (subscriptions after) = List.length (subscriptions w) /\
  List.map (getField k) (subscriptions after)
  = List.map (getField k) (subscriptions w).
Proof.
  intros _ Hs Hl. cbv zeta.
  rewrite handlePaymentIntent_writes_only_reconciliation.
  destruct (List.find (Spec.receiptGoesTo (data_object event)) (users w));
    [|now split].
  rewrite updateSubscriptionResultFromPaymentIntent_run. cbv zeta.
  cbn [snd subscriptions withSubscriptions].
  split; [apply length_updateFirst|].
  apply map_updateFirst. intros d. now apply reconciled_other_paths.
Qed.

Lemma X6_witness :
  In "priceId" subscriptionSchema /\
  "priceId" <> "status" /\
  List.map (getField "priceId")
    (subscriptions
       (snd (PaymentIntentService.handlePaymentIntent Scenario.live
               Scenario.succeeded
               (Scenario.world [Conforming.stored_1] [Scenario.user_a]))))
  = [Some (JStr "price_pro_month")].
Proof.
  assert (Hin : In "priceId" subscriptionSchema) by (simpl; tauto).
  assert (Hs : "priceId" <> "status") by discriminate.
  assert (Hl : "priceId" <> "latestInvoice") by discriminate.
  split; [exact Hin|]. split; [exact Hs|].
  exact (proj2 (X6_handler_keeps_records_and_identity Scenario.live
                  Scenario.succeeded
                  (Scenario.world [Conforming.stored_1] [Scenario.user_a])
                  "priceId" Hin Hs Hl)).
Defined.

(** The handler past its two lookups. *)
Lemma handlePaymentIntent_found (E : Deps) (event : Event) (w : World)
    (u : IUser) (updated : document) :
  List.find (Spec.receiptGoesTo (data_object event)) (users w) = Some u ->
  fst (SubscriptionsResultsService.updateSubscriptionResultFromPaymentIntent
         E (data_object event) w) = Returned (Some updated) ->
  let p := data_object event in
  let language := getLanguageFromCurrency E (pi_currency p) in
  let dictionary := getDictionayByLanguage E language in
  let amount :=
    convertPaymentAmountToDecimalString E (pi_amount_received p) in
  let plan := getPlanByPriceId E (getField "priceId" updated) in
  PaymentIntentService.handlePaymentIntent E event w
  = (userRecipient <-
       (if String.eqb (type event) "payment_intent.payment_failed" then
          PaymentIntentService.onPaymentFailed E u language dictionary
        else if String.eqb (type event) "payment_intent.succeeded" then
          PaymentIntentService.onSucceeded E p u language dictionary amount
            plan updated
        else
          logAt LogConsole ("Unhandled event type " ++ type event) ;;;
          ret None) ;;
     match userRecipient with
     | Some r => detached (sendEmailToUser r)
     | None => ret tt
     end)
      (snd (SubscriptionsResultsService.updateSubscriptionResultFromPaymentIntent
              E (data_object event) w)).
Proof.
  intros Hu Hupdated. cbv zeta.
  unfold PaymentIntentService.handlePaymentIntent at 1.
  unfold bind at 1. cbv zeta. rewrite UserDb_findOne_run, Hu.
  unfold bind at 1.
  destruct (SubscriptionsResultsService.updateSubscriptionResultFromPaymentIntent
              E (data_object event) w) as [found w1].
  simpl in Hupdated. subst found. reflexivity.
Qed.

Lemma reconciliation_frame (E : Deps) (p : IPaymentIntent) (w : World) :
  let w1 :=
    snd (SubscriptionsResultsService.updateSubscriptionResultFromPaymentIntent
           E p w) in
  outbox w1 = outbox w /\ logs w1 = logs w /\ stripeCalls w1 = stripeCalls w.
Proof.
  cbv zeta. rewrite updateSubscriptionResultFromPaymentIntent_run.
  cbv zeta. simpl. auto.
Qed.

(** X7.  A [payment_intent.payment_failed] for a known user and a record
    the reconciliation step returns: the handler completes, logs one
    warning, attempts exactly one mail, the failure notice addressed to
    the user (none to the system mailbox), asks nothing of the provider,
    and writes to the collection only what the reconciliation step
    wrote. *)
Theorem X7_payment_failed_notifies_the_user_only (E : Deps) (event : Event)
    (w : World) (u : IUser) (updated : document) :
  type event = "payment_intent.payment_failed" ->
  List.find (Spec.receiptGoesTo (data_object event)) (users w) = Some u ->
  fst (SubscriptionsResultsService.updateSubscriptionResultFromPaymentIntent
         E (data_object event) w) = Returned (Some updated) ->
  let language :=
    getLanguageFromCurrency E (pi_currency (data_object event)) in
  let notice :=
    PaymentIntentService.failedRecipient E u language
      (getDictionayByLanguage E language) in
  let r := PaymentIntentService.handlePaymentIntent E event w in
  fst r = Returned tt /\
  outbox (snd r) = outbox w ++ [notice] /\
  email notice = user_email u /\
  logs (snd r)
  = logs w ++ [(LogWarn,
                ("Pagamento do usuario " ++ user_email u ++ " falhou")%string)]
  /\
  stripeCalls (snd r) = stripeCalls w /\
  subscriptions (snd r)
  = subscriptions
      (snd (SubscriptionsResultsService.updateSubscriptionResultFromPaymentIntent
              E (data_object event) w)).
Proof.
  intros Htype Hu Hupdated. cbv zeta.
  rewrite (handlePaymentIntent_found E event w u updated Hu Hupdated).
  cbv zeta. rewrite Htype.
  replace ("payment_intent.payment_failed" =? "payment_intent.payment_failed")
    with true by reflexivity.
  destruct (reconciliation_frame E (data_object event) w)
    as (Hout & Hlogs & Hcalls).
  set (w1 := snd (SubscriptionsResultsService.updateSubscriptionResultFromPaymentIntent
                    E (data_object event) w)) in *.
  unfold PaymentIntentService.onPaymentFailed.
  unfold bind, ret, logAt, modify, detached, sendEmailToUser. simpl.
  repeat split.
Qed.

Lemma X7_witness :
  type Scenario.payment_failed = "payment_intent.payment_failed" /\
  List.map email
    (outbox (snd (PaymentIntentService.handlePaymentIntent Scenario.live
                    Scenario.payment_failed
                    (Scenario.world [Scenario.keyed] [Scenario.user_a]))))
  = ["a@x.com"].
Proof.
  split; [reflexivity|].
  destruct (X7_payment_failed_notifies_the_user_only Scenario.live
              Scenario.payment_failed
              (Scenario.world [Scenario.keyed] [Scenario.user_a])
              Scenario.user_a
              (Spec.reconciled (data_object Scenario.payment_failed)
                 Scenario.keyed))
    as (_ & Hout & Hto & _).
  - reflexivity.
  - reflexivity.
  - reflexivity.
  - rewrite Hout. reflexivity.
Defined.

(** X8.  An event of any other subtype ([payment_intent.created], say)
    whose receipt address is that of a user and whose payment intent id
    keys a stored record (the first record whose [latestInvoice] holds
    that correlation key and nothing more) is still reconciled: that
    very record is rewritten in place with the intent's status.  Beyond
    that the handler only logs the type as unhandled: it completes, no
    mail is attempted and nothing is asked of the provider. *)
Theorem X8_other_subtypes_rewrite_the_record_silently (E : Deps)
    (event : Event) (w : World) (u : IUser) (pre post : list document)
    (d : document) :
  type event <> "payment_intent.payment_failed" ->
  type event <> "payment_intent.succeeded" ->
  List.find (Spec.receiptGoesTo (data_object event)) (users w) = Some u ->
  subscriptions w = pre ++ d :: post ->
  (forall x, In x pre ->
             Spec.keyedBy (pi_id (data_object event)) x = false) ->
  Spec.keyedBy (pi_id (data_object event)) d = true ->
  let updated := Spec.reconciled (data_object event) d in
  let r := PaymentIntentService.handlePaymentIntent E event w in
  fst r = Returned tt /\
  subscriptions (snd r) = pre ++ updated :: post /\
  getField "status" updated = Some (JStr (pi_status (data_object event))) /\
  outbox (snd r) = outbox w /\
  stripeCalls (snd r) = stripeCalls w /\
  logs (snd r)
  = logs w ++ [(LogConsole,
                ("Unhandled event type " ++ type event)%string)].
Proof.
  intros Hfailed Hsucceeded Hu Hsplit Hpre Hd. cbv zeta.
  pose proof (reconciliation_effect E (data_object event) w pre post d
                Hsplit Hpre Hd) as Hrun.
  assert (Hupdated :
    fst (SubscriptionsResultsService.updateSubscriptionResultFromPaymentIntent
           E (data_object event) w)
    = Returned (Some (Spec.reconciled (data_object event) d)))
    by now rewrite Hrun.
  rewrite (handlePaymentIntent_found E event w u _ Hu Hupdated).
  cbv zeta.
  apply String.eqb_neq in Hfailed. apply String.eqb_neq in Hsucceeded.
  rewrite Hfailed, Hsucceeded, Hrun.
  unfold bind, ret, logAt, modify. simpl.
  split; [reflexivity|]. split; [reflexivity|].
  split; [apply reconciled_status|].
  repeat split.
Qed.

Lemma X8_witness :
  type Provisioned.created <> "payment_intent.succeeded" /\
  Spec.keyedBy (pi_id (data_object Provisioned.created)) Conforming.stored_1
  = true /\
  subscriptions
    (snd (PaymentIntentService.handlePaymentIntent Scenario.live
            Provisioned.created
            (Scenario.world [Scenario.mirrored; Conforming.stored_1]
               [Scenario.user_a])))
  = [Scenario.mirrored;
     Spec.reconciled (data_object Provisioned.created) Conforming.stored_1]
  /\
  logs (snd (PaymentIntentService.handlePaymentIntent Scenario.live
               Provisioned.created
               (Scenario.world [Scenario.mirrored; Conforming.stored_1]
                  [Scenario.user_a])))
  = [(LogConsole, "Unhandled event type payment_intent.created")].
Proof.
  assert (Hs : type Provisioned.created <> "payment_intent.succeeded")
    by discriminate.
  split; [exact Hs|]. split; [reflexivity|].
  destruct (X8_other_subtypes_rewrite_the_record_silently Scenario.live
              Provisioned.created
              (Scenario.world [Scenario.mirrored; Conforming.stored_1]
                 [Scenario.user_a])
              Scenario.user_a [Scenario.mirrored] [] Conforming.stored_1)
    as (_ & Hstore & _ & _ & _ & Hlogs).
  - discriminate.
  - exact Hs.
  - reflexivity.
  - reflexivity.
  - intros x [<-|[]]. reflexivity.
  - reflexivity.
  - split; [exact Hstore | exact Hlogs].
Defined.

(** X9.  A [payment_intent.succeeded] whose customer reference is
    [null], whose receipt address is that of a user and whose payment
    intent id keys a stored record (the first record whose
    [latestInvoice] holds that correlation key and nothing more) makes
    the handler raise a [TypeError] at [paymentIntent.customer.id]: by
    then that record has been rewritten in place by the reconciliation
    step and the success has been logged, but no mail is attempted,
    neither to the user nor to the system mailbox, and nothing is asked
    of the provider. *)
Theorem X9_null_customer_raises_after_the_write (E : Deps) (event : Event)
    (w : World) (u : IUser) (pre post : list document) (d : document) :
  type event = "payment_intent.succeeded" ->
  pi_customer (data_object event) = JNull ->
  List.find (Spec.receiptGoesTo (data_object event)) (users w) = Some u ->
  subscriptions w = pre ++ d :: post ->
  (forall x, In x pre ->
             Spec.keyedBy (pi_id (data_object event)) x = false) ->
  Spec.keyedBy (pi_id (data_object event)) d = true ->
  let updated := Spec.reconciled (data_object event) d in
  let r := PaymentIntentService.handlePaymentIntent E event w in
  fst r = Thrown "TypeError: Cannot read properties of null (reading 'id')" /\
  subscriptions (snd r) = pre ++ updated :: post /\
  getField "status" updated = Some (JStr (pi_status (data_object event))) /\
  outbox (snd r) = outbox w /\
  stripeCalls (snd r) = stripeCalls w /\
  logs (snd r)
  = logs w ++ [(LogSuccess,
                ("Pagamento com sucesso para o usuario "
                 ++ user_email u)%string)].
Proof.
  intros Htype Hnull Hu Hsplit Hpre Hd. cbv zeta.
  pose proof (reconciliation_effect E (data_object event) w pre post d
                Hsplit Hpre Hd) as Hrun.
  assert (Hupdated :
    fst (SubscriptionsResultsService.updateSubscriptionResultFromPaymentIntent
           E (data_object event) w)
    = Returned (Some (Spec.reconciled (data_object event) d)))
    by now rewrite Hrun.
  rewrite (handlePaymentIntent_found E event w u _ Hu Hupdated).
  cbv zeta. rewrite Htype.
  replace ("payment_intent.succeeded" =? "payment_intent.payment_failed")
    with false by reflexivity.
  replace ("payment_intent.succeeded" =? "payment_intent.succeeded")
    with true by reflexivity.
  rewrite Hrun.
  unfold PaymentIntentService.onSucceeded. run_async. rewrite Hnull. simpl.
  split; [reflexivity|]. split; [reflexivity|].
  split; [apply reconciled_status|].
  repeat split.
Qed.

Lemma X9_witness :
  pi_customer (data_object Scenario.stranger) = JNull /\
  fst (PaymentIntentService.handlePaymentIntent Scenario.live
         Scenario.stranger
         (Scenario.world
            [ [("subscriptionId", JStr "sub_2");
               ("latestInvoice", Spec.keyOnly "pi_2");
               ("userId", JStr Conforming.owner)] ]
            [ {| firstName := "Nil"; lastName := "Nobody";
                 user_email := "nobody@x.com" |} ]))
  = Thrown "TypeError: Cannot read properties of null (reading 'id')".
Proof.
  split; [reflexivity|].
  refine (proj1 (X9_null_customer_raises_after_the_write Scenario.live
                   Scenario.stranger
                   (Scenario.world
                      [ [("subscriptionId", JStr "sub_2");
                         ("latestInvoice", Spec.keyOnly "pi_2");
                         ("userId", JStr Conforming.owner)] ]
                      [ {| firstName := "Nil"; lastName := "Nobody";
                           user_email := "nobody@x.com" |} ])
                   {| firstName := "Nil"; lastName := "Nobody";
                      user_email := "nobody@x.com" |}
                   [] []
                   [("subscriptionId", JStr "sub_2");
                    ("latestInvoice", Spec.keyOnly "pi_2");
                    ("userId", JStr Conforming.owner)]
                   _ _ _ _ _ _)); first [reflexivity | intros x []].
Defined.

(** *** The handler, branch by branch *)

Section HandlerBranches.
Variable E : Deps.
Variable event : Event.
Variable w : World.

Let p := data_object event.
Let w1 :=
  snd (SubscriptionsResultsService.updateSubscriptionResultFromPaymentIntent
         E p w).

Lemma handler_without_user :
  List.find (Spec.receiptGoesTo p) (users w) = None ->
  PaymentIntentService.handlePaymentIntent E event w = (Returned tt, w).
Proof.
  intros Hnone.
  unfold PaymentIntentService.handlePaymentIntent, bind. cbv zeta.
  fold p. now rewrite UserDb_findOne_run, Hnone.
Qed.

Lemma handler_without_record (u : IUser) :
  List.find (Spec.receiptGoesTo p) (users w) = Some u ->
  fst (SubscriptionsResultsService.updateSubscriptionResultFromPaymentIntent
         E p w) = Returned None ->
  PaymentIntentService.handlePaymentIntent E event w
  = (Returned tt, withLog (Spec.updateError p) w1).
Proof.
  intros Hu Hnone. subst w1.
  unfold PaymentIntentService.handlePaymentIntent, bind. cbv zeta.
  fold p. rewrite UserDb_findOne_run, Hu.
  destruct (SubscriptionsResultsService.updateSubscriptionResultFromPaymentIntent
              E p w) as [found w2].
  simpl in Hnone. subst found. reflexivity.
Qed.

Lemma handler_on_failed (u : IUser) (updated : document) :
  type event = "payment_intent.payment_failed" ->
  List.find (Spec.receiptGoesTo p) (users w) = Some u ->
  fst (SubscriptionsResultsService.updateSubscriptionResultFromPaymentIntent
         E p w) = Returned (Some updated) ->
  PaymentIntentService.handlePaymentIntent E event w
  = (Returned tt,
     withMail
       (PaymentIntentService.failedRecipient E u
          (getLanguageFromCurrency E (pi_currency p))
          (getDictionayByLanguage E
             (getLanguageFromCurrency E (pi_currency p))))
       (withLog
          (LogWarn,
           ("Pagamento do usuario " ++ user_email u ++ " falhou")%string)
          w1)).
Proof.
  intros Htype Hu Hupdated. subst w1 p.
  rewrite (handlePaymentIntent_found E event w u updated Hu Hupdated).
  cbv zeta. rewrite Htype.
  replace ("payment_intent.payment_failed" =? "payment_intent.payment_failed")
    with true by reflexivity.
  reflexivity.
Qed.

Lemma handler_on_other (u : IUser) (updated : document) :
  type event <> "payment_intent.payment_failed" ->
  type event <> "payment_intent.succeeded" ->
  List.find (Spec.receiptGoesTo p) (users w) = Some u ->
  fst (SubscriptionsResultsService.updateSubscriptionResultFromPaymentIntent
         E p w) = Returned (Some updated) ->
  PaymentIntentService.handlePaymentIntent E event w
  = (Returned tt,
     withLog (LogConsole, ("Unhandled event type " ++ type event)%string) w1).
Proof.
  intros Hfailed Hsucceeded Hu Hupdated. subst w1 p.
  rewrite (handlePaymentIntent_found E event w u updated Hu Hupdated).
  cbv zeta.
  apply String.eqb_neq in Hfailed. apply String.eqb_neq in Hsucceeded.
  now rewrite Hfailed, Hsucceeded.
Qed.

Lemma handler_on_null_customer (u : IUser) (updated : document) :
  type event = "payment_intent.succeeded" ->
  pi_customer p = JNull ->
  List.find (Spec.receiptGoesTo p) (users w) = Some u ->
  fst (SubscriptionsResultsService.updateSubscriptionResultFromPaymentIntent
         E p w) = Returned (Some updated) ->
  PaymentIntentService.handlePaymentIntent E event w
  = (Thrown "TypeError: Cannot read properties of null (reading 'id')",
     withLog
       (LogSuccess,
        ("Pagamento com sucesso para o usuario " ++ user_email u)%string)
       w1).
Proof.
  intros Htype Hnull Hu Hupdated. subst w1 p.
  rewrite (handlePaymentIntent_found E event w u updated Hu Hupdated).
  cbv zeta. rewrite Htype.
  replace ("payment_intent.succeeded" =? "payment_intent.payment_failed")
    with false by reflexivity.
  replace ("payment_intent.succeeded" =? "payment_intent.succeeded")
    with true by reflexivity.
  unfold PaymentIntentService.onSucceeded. run_async.
  now rewrite Hnull.
Qed.

End HandlerBranches.

(** The provider requests of the success branch: none, or one request
    for a schedule. *)
Lemma onSucceeded_calls (E : Deps) (p : IPaymentIntent) (u : IUser)
    (language : string) (dictionary : Dictionary) (amount plan : string)
    (updated : document) (w : World) :
  let w' :=
    snd (PaymentIntentService.onSucceeded E p u language dictionary amount
           plan updated w) in
  stripeCalls w' = stripeCalls w \/
  exists c s,
    stripeCalls w' = stripeCalls w ++ [CreateSubscriptionSchedule c s].
Proof.
  cbv zeta. unfold PaymentIntentService.onSucceeded. run_async.
  destruct (pi_customer p); simpl;
    repeat match goal with
      | |- context [if ?b then _ else _] => destruct b; simpl
      | |- context [match scheduleFor E ?a ?b with _ => _ end] =>
          destruct (scheduleFor E a b); simpl
      | |- context [match PaymentIntentService.systemUser E with _ => _ end] =>
          destruct (PaymentIntentService.systemUser E); simpl
      end;
    first [ left; reflexivity | right; do 2 eexists; reflexivity ].
Qed.

Lemma String_eqb_cases (a b : string) :
  (String.eqb a b = true /\ a = b) \/ (String.eqb a b = false /\ a <> b).
Proof.
  destruct (String.eqb a b) eqn:H.
  - left. split; [reflexivity | now apply String.eqb_eq].
  - right. split; [reflexivity | now apply String.eqb_neq].
Qed.

Lemma reconciliation_returns (E : Deps) (p : IPaymentIntent) (w : World) :
  exists found,
    fst (SubscriptionsResultsService.updateSubscriptionResultFromPaymentIntent
           E p w) = Returned found.
Proof.
  rewrite updateSubscriptionResultFromPaymentIntent_run. cbv zeta.
  eexists. reflexivity.
Qed.

Lemma null_or_not (v : json) : v = JNull \/ v <> JNull.
Proof. destruct v; first [left; reflexivity | right; discriminate]. Qed.

(** X10.  Whatever the event and the state of the world, the handler
    attempts at most two mails, and each of them is addressed either to
    the user found for the receipt address or to the configured system
    mailbox: nobody else is ever written to. *)
Theorem X10_mail_goes_to_the_user_or_the_system_mailbox (E : Deps)
    (event : Event) (w : World) :
  let r := PaymentIntentService.handlePaymentIntent E event w in
  exists mails,
    outbox (snd r) = outbox w ++ mails /\
    List.length mails <= 2 /\
    forall m, In m mails ->
      (exists u,
          List.find (Spec.receiptGoesTo (data_object event)) (users w)
          = Some u /\ email m = user_email u)
      \/ PaymentIntentService.systemUser E = Some (email m).
Proof.
  cbv zeta.
  destruct (reconciliation_frame E (data_object event) w)
    as (Hout & _ & _).
  destruct (List.find (Spec.receiptGoesTo (data_object event)) (users w))
    as [u|] eqn:Hu.
  2:{ rewrite handler_without_user by exact Hu. exists [].
      rewrite app_nil_r.
      repeat split; first [intros m [] | repeat constructor]. }
  destruct (reconciliation_returns E (data_object event) w)
    as [[updated|] Hfound].
  2:{ rewrite (handler_without_record E event w u Hu Hfound). exists [].
      simpl. rewrite app_nil_r.
      repeat split;
        first [exact Hout | intros m [] | repeat constructor]. }
  destruct (String_eqb_cases (type event) "payment_intent.payment_failed")
    as [[_ Hfailed]|[_ Hfailed]].
  { rewrite (handler_on_failed E event w u updated Hfailed Hu Hfound).
    eexists. simpl. rewrite ?Hout. split; [reflexivity|].
    split; [repeat constructor|].
    intros m [<-|[]]. left. exists u. split; reflexivity. }
  destruct (String_eqb_cases (type event) "payment_intent.succeeded")
    as [[_ Hsucceeded]|[_ Hsucceeded]].
  2:{ rewrite (handler_on_other E event w u updated Hfailed Hsucceeded Hu
                 Hfound).
      exists []. simpl. rewrite app_nil_r.
      repeat split;
        first [exact Hout | intros m [] | repeat constructor]. }
  destruct (null_or_not (pi_customer (data_object event)))
    as [Hnull|Hcustomer].
  { rewrite (handler_on_null_customer E event w u updated Hsucceeded Hnull
               Hu Hfound).
    exists []. simpl. rewrite app_nil_r.
    repeat split;
      first [exact Hout | intros m [] | repeat constructor]. }
  destruct (handlePaymentIntent_succeeded E event w u updated Hsucceeded Hu
              Hfound Hcustomer) as (_ & _ & Hmails).
  exists (Spec.succeededMails E u (data_object event) updated).
  split; [exact Hmails|].
  unfold Spec.succeededMails. cbv zeta.
  destruct (PaymentIntentService.systemUser E) as [mailbox|]; simpl.
  - split; [repeat constructor|].
    intros m [<-|[<-|[]]]; [right; reflexivity|].
    left. exists u. split; reflexivity.
  - split; [repeat constructor|].
    intros m [<-|[]]. left. exists u. split; reflexivity.
Qed.

(** X11.  The handler never cancels anything at the provider and asks
    it for nothing unless the event is a [payment_intent.succeeded]: the
    provider sees no request at all, or, on a success, one request for a
    subscription schedule. *)
Theorem X11_only_a_success_reaches_the_provider (E : Deps) (event : Event)
    (w : World) :
  let r := PaymentIntentService.handlePaymentIntent E event w in
  stripeCalls (snd r) = stripeCalls w \/
  (type event = "payment_intent.succeeded" /\
   exists customerId subscriptionId,
     stripeCalls (snd r)
     = stripeCalls w
       ++ [CreateSubscriptionSchedule customerId subscriptionId]).
Proof.
  cbv zeta.
  destruct (reconciliation_frame E (data_object event) w)
    as (_ & _ & Hcalls).
  destruct (List.find (Spec.receiptGoesTo (data_object event)) (users w))
    as [u|] eqn:Hu.
  2:{ left. now rewrite handler_without_user. }
  destruct (reconciliation_returns E (data_object event) w)
    as [[updated|] Hfound].
  2:{ left. rewrite (handler_without_record E event w u Hu Hfound).
      exact Hcalls. }
  destruct (String_eqb_cases (type event) "payment_intent.payment_failed")
    as [[_ Hfailed]|[Hnotfailed Hfailed]].
  { left. rewrite (handler_on_failed E event w u updated Hfailed Hu Hfound).
    exact Hcalls. }
  destruct (String_eqb_cases (type event) "payment_intent.succeeded")
    as [[Hissucceeded Hsucceeded]|[_ Hsucceeded]].
  2:{ left.
      rewrite (handler_on_other E event w u updated Hfailed Hsucceeded Hu
                 Hfound).
      exact Hcalls. }
  rewrite (handlePaymentIntent_found E event w u updated Hu Hfound).
  cbv zeta. rewrite Hnotfailed, Hissucceeded. unfold bind.
  match goal with
  | |- context [PaymentIntentService.onSucceeded E ?p ?u ?l ?d ?a ?pl ?up ?w0] =>
      pose proof (onSucceeded_calls E p u l d a pl up w0) as Hs;
      cbv zeta in Hs;
      destruct (PaymentIntentService.onSucceeded E p u l d a pl up w0)
        as [[[r|]|message] w2]
  end; simpl in Hs |- *; rewrite ?Hcalls in Hs;
    (destruct Hs as [Hs|(c & s & Hs)];
     [left; exact Hs | right; split; [exact Hsucceeded | eauto]]).
Qed.

(* ================================================================== *)
(** ** Customers and subscriptions at the provider *)
(* ================================================================== *)

Lemma ensureStripeInstance_run (E : Deps) (w : World) :
  StripeService.ensureStripeInstance E w = (Returned tt, Spec.afterInit E w).
Proof.
  unfold StripeService.ensureStripeInstance, modify, Spec.afterInit.
  reflexivity.
Qed.

Lemma afterInit_ready (E : Deps) (w : World) (client : Stripe) :
  stripeInstance (Spec.afterInit E w) = Some client ->
  Spec.afterInit E (Spec.afterInit E w) = Spec.afterInit E w.
Proof.
  intros H. unfold Spec.afterInit at 1. now rewrite H.
Qed.

Lemma afterInit_offline (E : Deps) (w : World) :
  stripeInstance w = None -> initializeStripe E = None ->
  Spec.afterInit E w = w.
Proof.
  intros Hw Hinit. unfold Spec.afterInit. rewrite Hw, Hinit.
  destruct w; simpl in *. now subst.
Qed.

Section Provisioning.
Variable E : Deps.
Variable A : StripeProvisioning.Api.

Lemma createCustomer_run (user : StripeProvisioning.Account) (w : World) :
  StripeProvisioning.createCustomer E A user w =
  let w0 := Spec.afterInit E w in
  match stripeInstance w0 with
  | None => (Returned None, w0)
  | Some _ =>
      StripeProvisioning.customers_create A
        (StripeProvisioning.customerParams user) w0
  end.
Proof.
  unfold StripeProvisioning.createCustomer, bind, gets, ret. cbv zeta.
  rewrite ensureStripeInstance_run.
  destruct (stripeInstance (Spec.afterInit E w)); [|reflexivity].
  destruct (StripeProvisioning.customers_create A _ _) as [[[c|]|m] w'];
    reflexivity.
Qed.

(** X13.  A user who already has a payment id is returned as is by
    [assureStripeCustomerCreated], provided the provider client is
    there: no customer is created, whatever the provider would
    answer. *)
Theorem X13_assure_keeps_an_existing_customer
    (user : StripeProvisioning.Account) (w : World) :
  Spec.providerReady E w ->
  StripeProvisioning.truthyString (StripeProvisioning.paymentId user)
    <> None ->
  StripeProvisioning.assureStripeCustomerCreated E A user w
  = (Returned user, Spec.afterInit E w).
Proof.
  intros Hready Hpaid.
  unfold StripeProvisioning.assureStripeCustomerCreated, bind, gets, ret.
  rewrite ensureStripeInstance_run.
  destruct (providerReady_afterInit E w Hready) as [client ->].
  destruct (StripeProvisioning.truthyString
              (StripeProvisioning.paymentId user)); [reflexivity|].
  now destruct Hpaid.
Qed.

(** X14.  Without a provider client, and with none to be made, nothing
    is attempted: [createCustomer], [getSubsctriptionPaymentIntent] and
    [createSubscriptionOnStripe] return [null], while
    [assureStripeCustomerCreated] raises the invalid-instance error, and
    does so even for a user who already has a payment id; the world is
    left as it was. *)
Theorem X14_nothing_is_provisioned_without_a_client
    (user : StripeProvisioning.Account) (id paymentId currency : string)
    (recurrency : StripeProvisioning.Recurrency)
    (planType : StripeProvisioning.PlansTypes A) (w : World) :
  stripeInstance w = None -> initializeStripe E = None ->
  StripeProvisioning.createCustomer E A user w = (Returned None, w) /\
  StripeProvisioning.getSubsctriptionPaymentIntent E A id w
  = (Returned None, w) /\
  StripeProvisioning.createSubscriptionOnStripe E A paymentId currency
    recurrency planType w = (Returned None, w) /\
  StripeProvisioning.assureStripeCustomerCreated E A user w
  = (Thrown (StripeProvisioning.INVALID_PAYMENT_INSTANCE A), w).
Proof.
  intros Hw Hinit.
  pose proof (afterInit_offline E w Hw Hinit) as Hsame.
  repeat split.
  - rewrite createCustomer_run. cbv zeta. now rewrite Hsame, Hw.
  - unfold StripeProvisioning.getSubsctriptionPaymentIntent, bind, gets, ret.
    now rewrite ensureStripeInstance_run, Hsame, Hw.
  - unfold StripeProvisioning.createSubscriptionOnStripe, bind, gets, ret.
    now rewrite ensureStripeInstance_run, Hsame, Hw.
  - unfold StripeProvisioning.assureStripeCustomerCreated, bind, gets, throw.
    now rewrite ensureStripeInstance_run, Hsame, Hw.
Qed.

(** X15.  For a user without a payment id, and with the provider client
    there, [assureStripeCustomerCreated] makes one request, for a
    customer with the user's address, full name and ids.  If the
    provider returns a customer, the user comes back with that
    customer's id as payment id and is otherwise unchanged; if it
    returns nothing, the customer-not-created error is raised; if the
    request is rejected, the rejection is passed on. *)
Theorem X15_assure_creates_the_missing_customer
    (user : StripeProvisioning.Account) (w : World) :
  Spec.providerReady E w ->
  StripeProvisioning.truthyString (StripeProvisioning.paymentId user) = None ->
  let request :=
    StripeProvisioning.customers_create A
      (StripeProvisioning.customerParams user) (Spec.afterInit E w) in
  StripeProvisioning.assureStripeCustomerCreated E A user w =
  match fst request with
  | Returned (Some c) =>
      (Returned
         {| StripeProvisioning.profile := StripeProvisioning.profile user;
            StripeProvisioning.authId := StripeProvisioning.authId user;
            StripeProvisioning.user_id := StripeProvisioning.user_id user;
            StripeProvisioning.paymentId :=
              Some (StripeProvisioning.customer_id c) |},
       snd request)
  | Returned None =>
      (Thrown (StripeProvisioning.PAYMENT_CUSTOMER_NOT_CREATED A),
       snd request)
  | Thrown rejection => (Thrown rejection, snd request)
  end.
Proof.
  intros Hready Hunpaid. cbv zeta.
  unfold StripeProvisioning.assureStripeCustomerCreated.
  unfold bind at 1. rewrite ensureStripeInstance_run.
  unfold bind at 1. unfold gets at 1.
  destruct (providerReady_afterInit E w Hready) as [client Hclient].
  rewrite Hclient, Hunpaid.
  unfold bind. rewrite createCustomer_run. cbv zeta.
  rewrite (afterInit_ready E w client Hclient), Hclient.
  destruct (StripeProvisioning.customers_create A _ _) as [[[c|]|m] w'];
    reflexivity.
Qed.

(** X16.  [createSubscriptionOnStripe] sends nothing and returns [null]
    when the payment id is empty or when no price is mapped to the
    recurrency and plan.  Otherwise, with the provider client there, it
    makes one request, for that customer and that price with incomplete
    payment allowed and the payment intent expanded, and its result is
    the provider's answer, or its rejection. *)
Theorem X16_subscription_needs_customer_and_price
    (paymentId currency : string)
    (recurrency : StripeProvisioning.Recurrency)
    (planType : StripeProvisioning.PlansTypes A) (w : World) :
  let price :=
    StripeProvisioning.truthyString
      (StripeProvisioning.getPriceIdByRecurrencyAndPlanType A recurrency
         planType) in
  let r :=
    StripeProvisioning.createSubscriptionOnStripe E A paymentId currency
      recurrency planType w in
  (paymentId = "" \/ price = None -> r = (Returned None, Spec.afterInit E w))
  /\
  (Spec.providerReady E w -> paymentId <> "" ->
   forall priceId, price = Some priceId ->
     let request :=
       StripeProvisioning.subscriptions_create A
         {| StripeProvisioning.sub_customer := paymentId;
            StripeProvisioning.sub_items := [priceId];
            StripeProvisioning.cancel_at_period_end := true;
            StripeProvisioning.sub_currency := currency;
            StripeProvisioning.collection_method := "charge_automatically";
            StripeProvisioning.save_default_payment_method :=
              "on_subscription";
            StripeProvisioning.payment_behavior := "default_incomplete";
            StripeProvisioning.expand := ["latest_invoice.payment_intent"] |}
         (Spec.afterInit E w) in
     r = match fst request with
         | Returned subscription => (Returned (Some subscription), snd request)
         | Thrown rejection => (Thrown rejection, snd request)
         end).
Proof.
  cbv zeta.
  unfold StripeProvisioning.createSubscriptionOnStripe, bind, gets, ret.
  rewrite ensureStripeInstance_run. split.
  - intros Hguard.
    destruct (stripeInstance (Spec.afterInit E w)); [|reflexivity].
    destruct Hguard as [->|Hprice]; [reflexivity|].
    rewrite Hprice. destruct (String.eqb paymentId ""); reflexivity.
  - intros Hready Hpaid priceId Hprice.
    destruct (providerReady_afterInit E w Hready) as [client ->].
    apply String.eqb_neq in Hpaid. rewrite Hpaid, Hprice.
    unfold StripeProvisioning.subscriptionParams.
    destruct (StripeProvisioning.subscriptions_create A _ _) as [[s|m] w'];
      reflexivity.
Qed.

(** X17.  [getSubsctriptionPaymentIntent] sends nothing and returns
    [null] for an empty id; for any other id, with the provider client
    there, it makes the one retrieval and its result is the provider's
    answer, or its rejection. *)
Theorem X17_payment_intent_lookup_needs_an_id (id : string) (w : World) :
  let r := StripeProvisioning.getSubsctriptionPaymentIntent E A id w in
  (id = "" -> r = (Returned None, Spec.afterInit E w)) /\
  (Spec.providerReady E w -> id <> "" ->
   let request :=
     StripeProvisioning.paymentIntents_retrieve A id (Spec.afterInit E w) in
   r = match fst request with
       | Returned paymentIntent => (Returned (Some paymentIntent), snd request)
       | Thrown rejection => (Thrown rejection, snd request)
       end).
Proof.
  cbv zeta.
  unfold StripeProvisioning.getSubsctriptionPaymentIntent, bind, gets, ret.
  rewrite ensureStripeInstance_run. split.
  - intros ->. destruct (stripeInstance (Spec.afterInit E w)); reflexivity.
  - intros Hready Hid.
    destruct (providerReady_afterInit E w Hready) as [client ->].
    apply String.eqb_neq in Hid. rewrite Hid.
    destruct (StripeProvisioning.paymentIntents_retrieve A _ _)
      as [[s|m] w']; reflexivity.
Qed.

End Provisioning.

Lemma X13_witness :
  Spec.providerReady Scenario.live (Scenario.world [] []) /\
  StripeProvisioning.assureStripeCustomerCreated Scenario.live
    Provisioned.api Provisioned.subscriber (Scenario.world [] [])
  = (Returned Provisioned.subscriber, Scenario.world [] []).
Proof.
  assert (Hready : Spec.providerReady Scenario.live (Scenario.world [] [])).
  { left. discriminate. }
  split; [exact Hready|].
  apply (X13_assure_keeps_an_existing_customer Scenario.live Provisioned.api
           Provisioned.subscriber (Scenario.world [] []) Hready).
  discriminate.
Defined.

Lemma X14_witness :
  stripeInstance (Provisioned.unplugged []) = None /\
  StripeProvisioning.assureStripeCustomerCreated Provisioned.offline
    Provisioned.api Provisioned.subscriber (Provisioned.unplugged [])
  = (Thrown "Invalid payment instance", Provisioned.unplugged []).
Proof.
  split; [reflexivity|].
  destruct (X14_nothing_is_provisioned_without_a_client Provisioned.offline
              Provisioned.api Provisioned.subscriber "pi_1" "cus_1" "usd"
              StripeProvisioning.month Provisioned.Pro
              (Provisioned.unplugged []))
    as (_ & _ & _ & Hraised); [reflexivity | reflexivity | exact Hraised].
Defined.

Lemma X15_witness :
  StripeProvisioning.truthyString
    (StripeProvisioning.paymentId Provisioned.newcomer) = None /\
  fst (StripeProvisioning.assureStripeCustomerCreated Scenario.live
         Provisioned.api Provisioned.newcomer (Scenario.world [] []))
  = Returned
      {| StripeProvisioning.profile := Scenario.user_a;
         StripeProvisioning.authId := Some "auth_1";
         StripeProvisioning.user_id := Some "u_1";
         StripeProvisioning.paymentId := Some "cus_9" |}.
Proof.
  split; [reflexivity|].
  rewrite (X15_assure_creates_the_missing_customer Scenario.live
             Provisioned.api Provisioned.newcomer (Scenario.world [] [])).
  - reflexivity.
  - left. discriminate.
  - reflexivity.
Defined.

Lemma X16_witness :
  StripeProvisioning.getPriceIdByRecurrencyAndPlanType Provisioned.api
    StripeProvisioning.month Provisioned.Free = None /\
  StripeProvisioning.createSubscriptionOnStripe Scenario.live Provisioned.api
    "cus_1" "usd" StripeProvisioning.month Provisioned.Free
    (Scenario.world [] [])
  = (Returned None, Scenario.world [] []).
Proof.
  split; [reflexivity|].
  apply (proj1 (X16_subscription_needs_customer_and_price Scenario.live
                  Provisioned.api "cus_1" "usd" StripeProvisioning.month
                  Provisioned.Free (Scenario.world [] []))).
  right. reflexivity.
Defined.

Lemma X17_witness :
  Spec.providerReady Scenario.live (Scenario.world [] []) /\
  StripeProvisioning.getSubsctriptionPaymentIntent Scenario.live
    Provisioned.api "pi_1" (Scenario.world [] [])
  = (Returned (Some (JObj [("id", JStr "pi_1")])), Scenario.world [] []).
Proof.
  assert (Hready : Spec.providerReady Scenario.live (Scenario.world [] [])).
  { left. discriminate. }
  split; [exact Hready|].
  apply (proj2 (X17_payment_intent_lookup_needs_an_id Scenario.live
                  Provisioned.api "pi_1" (Scenario.world [] [])) Hready).
  discriminate.
Defined.

(* ================================================================== *)
(** ** Redelivery *)
(* ================================================================== *)

(** X18.  A redelivered event is not handled twice.  When the receipt
    address is that of a user and exactly one record is selected by the
    reconciliation filter for the event's payment intent, then, however
    the first handling ended, handling the same event again finds no
    record: it logs the update error and does nothing else, so no mail
    is attempted a second time and the provider is not asked again. *)
Theorem X18_redelivery_finds_no_record (E : Deps) (event : Event)
    (w : World) (u : IUser) (pre post : list document) (d : document) :
  List.find (Spec.receiptGoesTo (data_object event)) (users w) = Some u ->
  subscriptions w = pre ++ d :: post ->
  (forall x, In x pre ->
             Spec.keyedBy (pi_id (data_object event)) x = false) ->
  Spec.keyedBy (pi_id (data_object event)) d = true ->
  (forall x, In x post ->
             Spec.keyedBy (pi_id (data_object event)) x = false) ->
  let once := snd (PaymentIntentService.handlePaymentIntent E event w) in
  subscriptions once
  = pre ++ Spec.reconciled (data_object event) d :: post /\
  PaymentIntentService.handlePaymentIntent E event once
  = (Returned tt, withLog (Spec.updateError (data_object event)) once).
Proof.
  intros Hu Hsplit Hpre Hd Hpost. cbv zeta.
  assert (Hstore :
    subscriptions (snd (PaymentIntentService.handlePaymentIntent E event w))
    = pre ++ Spec.reconciled (data_object event) d :: post).
  { rewrite handlePaymentIntent_writes_only_reconciliation, Hu.
    now rewrite (reconciliation_effect E (data_object event) w pre post d). }
  split; [exact Hstore|].
  destruct (handlePaymentIntent_frame E event w) as (Husers & _ & _).
  apply (handlePaymentIntent_no_record E event _ u).
  - now rewrite Husers.
  - rewrite Hstore. intros x Hx. apply in_app_or in Hx.
    destruct Hx as [Hx|[<-|Hx]]; auto.
    apply reconciled_not_keyedBy.
Qed.

Lemma X18_witness :
  Spec.keyedBy (pi_id (data_object Scenario.succeeded)) Scenario.keyed = true
  /\
  List.length
    (outbox
       (snd (PaymentIntentService.handlePaymentIntent Scenario.live
               Scenario.succeeded
               (snd (PaymentIntentService.handlePaymentIntent Scenario.live
                       Scenario.succeeded
                       (Scenario.world [Scenario.keyed] [Scenario.user_a]))))))
  = 2.
Proof.
  split; [reflexivity|].
  destruct (X18_redelivery_finds_no_record Scenario.live Scenario.succeeded
              (Scenario.world [Scenario.keyed] [Scenario.user_a])
              Scenario.user_a [] [] Scenario.keyed) as [_ Hagain].
  - reflexivity.
  - reflexivity.
  - intros x [].
  - reflexivity.
  - intros x [].
  - cbv zeta in Hagain. rewrite Hagain. reflexivity.
Defined.
